(** * Circadian rhythm tracker: validators and CSV store

    A shallow embedding of [utils/validators.py] and of the [DataHandler]
    class of [pages/data_handler.py], with the properties of the
    specification stated and proved over it.

    Python values are an inductive type, dictionaries are finite maps,
    exceptions are an error monad, the clock ([datetime.now()]) is an
    argument, and the two library services the code calls without defining
    them ([datetime.strptime] and the pandas CSV reader and writer) are
    interfaces: the code is embedded over any implementation of them. *)

From Stdlib Require Import ZArith QArith String Ascii List Bool Lia.
From Stdlib Require Import DecimalString.
From stdpp Require Import base option list gmap strings.

Local Open Scope string_scope.
Local Open Scope list_scope.
Local Open Scope Z_scope.

(** ** Python values *)

Module Py.

(** A Python [float]: not-a-number, an infinity, or a finite value (every
    finite float is a rational number; comparing it with an [int] is exact
    in Python). *)
Inductive pyfloat :=
| FNan
| FInf (negative : bool)
| FFin (q : Q).

(** A naive [datetime.datetime]. *)
Record datetime := mkDatetime {
  year : Z; month : Z; day : Z;
  hour : Z; minute : Z; second : Z; microsecond : Z }.

(** The values the validators and the store are run on. *)
Inductive pyval :=
| PNone
| PBool (b : bool)
| PInt (n : Z)
| PFloat (f : pyfloat)
| PStr (s : string)
| PDatetime (d : datetime).

Inductive exn :=
| ValueError (msg : string)
| KeyError (key : string)
| TypeError (msg : string)
| ParserError (msg : string).

(** The outcome of running a piece of Python: a value or a raised exception. *)
Inductive result (A : Type) :=
| Ok (a : A)
| Raise (e : exn).
Arguments Ok {A} a.
Arguments Raise {A} e.

Definition bind {A B} (m : result A) (k : A -> result B) : result B :=
  match m with
  | Ok a => k a
  | Raise e => Raise e
  end.

(** [try: m  except Exception as e: h e] *)
Definition try_except {A} (m : result A) (h : exn -> A) : A :=
  match m with
  | Ok a => a
  | Raise e => h e
  end.

(** [str(e)] for the exceptions above. *)
Definition str_exn (e : exn) : string :=
  match e with
  | ValueError m => m
  | KeyError k => "'" +:+ k +:+ "'"
  | TypeError m => m
  | ParserError m => m
  end.

Definition raises {A} (m : result A) : Prop :=
  match m with
  | Ok _ => False
  | Raise _ => True
  end.

(** *** Numbers *)

(** [isinstance(v, (int, float))]: [bool] is a subclass of [int]. *)
Definition as_number (v : pyval) : option pyfloat :=
  match v with
  | PBool b => Some (FFin (if b then 1 else 0)%Q)
  | PInt n => Some (FFin (inject_Z n))
  | PFloat f => Some f
  | _ => None
  end.

Definition is_number (v : pyval) : bool :=
  match as_number v with Some _ => true | None => false end.

Definition is_str (v : pyval) : bool :=
  match v with PStr _ => true | _ => false end.

(** [a < b] on floats (IEEE: every comparison with NaN is false). *)
Definition float_lt (a b : pyfloat) : bool :=
  match a, b with
  | FNan, _ => false
  | _, FNan => false
  | FInf true, FInf true => false
  | FInf true, _ => true
  | _, FInf true => false
  | FInf false, _ => false
  | FFin _, FInf false => true
  | FFin p, FFin q => match (p ?= q)%Q with Lt => true | _ => false end
  end.

(** [a <= b] on floats. *)
Definition float_le (a b : pyfloat) : bool :=
  match a, b with
  | FNan, _ => false
  | _, FNan => false
  | FInf true, _ => true
  | _, FInf false => true
  | FInf false, _ => false
  | FFin _, FInf true => false
  | FFin p, FFin q => match (p ?= q)%Q with Gt => false | _ => true end
  end.

(** [a == b] on floats. *)
Definition float_eq (a b : pyfloat) : bool :=
  match a, b with
  | FInf s, FInf t => Bool.eqb s t
  | FFin p, FFin q => Qeq_bool p q
  | _, _ => false
  end.

Definition not_orderable : exn :=
  TypeError "'<' not supported between instances".

(** The four order operators of Python on values: numbers are compared as
    numbers; anything else raises [TypeError] (strings and datetimes are
    never ordered against numbers by the code below). *)
Definition py_lt (a b : pyval) : result bool :=
  match as_number a, as_number b with
  | Some x, Some y => Ok (float_lt x y)
  | _, _ => Raise not_orderable
  end.
Definition py_gt (a b : pyval) : result bool := py_lt b a.
Definition py_le (a b : pyval) : result bool :=
  match as_number a, as_number b with
  | Some x, Some y => Ok (float_le x y)
  | _, _ => Raise not_orderable
  end.
Definition py_ge (a b : pyval) : result bool := py_le b a.

(** [str(n)] for a natural number and for an integer. *)
Definition str_nat (n : nat) : string := NilZero.string_of_uint (Nat.to_uint n).
Definition str_int (z : Z) : string :=
  if z <? 0 then "-" +:+ str_nat (Z.to_nat (- z)) else str_nat (Z.to_nat z).

(** *** Datetimes *)

Definition is_leap (y : Z) : bool :=
  ((y mod 4 =? 0) && negb (y mod 100 =? 0)) || (y mod 400 =? 0).

Definition days_in_month (y m : Z) : Z :=
  if m =? 2 then (if is_leap y then 29 else 28)
  else if (m =? 4) || (m =? 6) || (m =? 9) || (m =? 11) then 30
  else 31.

Definition valid_date (y m d : Z) : bool :=
  (1 <=? y) && (y <=? 9999) && (1 <=? m) && (m <=? 12) &&
  (1 <=? d) && (d <=? days_in_month y m).

Definition valid_time (h mi s us : Z) : bool :=
  (0 <=? h) && (h <=? 23) && (0 <=? mi) && (mi <=? 59) &&
  (0 <=? s) && (s <=? 59) && (0 <=? us) && (us <=? 999999).

Definition valid_datetime (d : datetime) : bool :=
  valid_date (year d) (month d) (day d) &&
  valid_time (hour d) (minute d) (second d) (microsecond d).

(** The constructor call [datetime(y, m, d)]: midnight of that date, or
    [ValueError] when there is no such date. *)
Definition datetime_ymd (y m d : Z) : result datetime :=
  if negb ((1 <=? y) && (y <=? 9999)) then
    Raise (ValueError ("year " +:+ str_int y +:+ " is out of range"))
  else if negb ((1 <=? m) && (m <=? 12)) then
    Raise (ValueError "month must be in 1..12")
  else if negb ((1 <=? d) && (d <=? days_in_month y m)) then
    Raise (ValueError "day is out of range for month")
  else Ok (mkDatetime y m d 0 0 0 0).

Definition dt_fields (d : datetime) : list Z :=
  [year d; month d; day d; hour d; minute d; second d; microsecond d].

Fixpoint lex_lt (a b : list Z) : bool :=
  match a, b with
  | x :: a', y :: b' => (x <? y) || ((x =? y) && lex_lt a' b')
  | _, _ => false
  end.

(** [a < b] on naive datetimes: field by field, most significant first. *)
Definition dt_lt (a b : datetime) : bool := lex_lt (dt_fields a) (dt_fields b).
Definition dt_gt (a b : datetime) : bool := dt_lt b a.

Definition dt_eqb (a b : datetime) : bool :=
  forallb (fun p => fst p =? snd p) (combine (dt_fields a) (dt_fields b)).

(** *** Strings *)

(** The characters [str.strip()] removes, among code points below 256. *)
Definition is_space (c : ascii) : bool :=
  let n := Z.of_nat (nat_of_ascii c) in
  ((9 <=? n) && (n <=? 13)) || ((28 <=? n) && (n <=? 32)) ||
  (n =? 133) || (n =? 160).

Fixpoint lstrip (s : string) : string :=
  match s with
  | String c s' => if is_space c then lstrip s' else s
  | EmptyString => EmptyString
  end.

Fixpoint rstrip (s : string) : string :=
  match s with
  | String c s' =>
      match rstrip s' with
      | EmptyString => if is_space c then EmptyString else String c EmptyString
      | t => String c t
      end
  | EmptyString => EmptyString
  end.

Definition strip (s : string) : string := rstrip (lstrip s).

(** The character class [[a-zA-Z0-9_-]]. *)
Definition is_id_char (c : ascii) : bool :=
  let n := Z.of_nat (nat_of_ascii c) in
  ((97 <=? n) && (n <=? 122)) || ((65 <=? n) && (n <=? 90)) ||
  ((48 <=? n) && (n <=? 57)) || (n =? 95) || (n =? 45).

Fixpoint all_chars (p : ascii -> bool) (s : string) : bool :=
  match s with
  | String c s' => p c && all_chars p s'
  | EmptyString => true
  end.

(** [re.match(r'^[a-zA-Z0-9_-]+$', s)] on a string without a trailing
    newline (the code only runs it on a stripped string). *)
Definition match_id_regex (s : string) : bool :=
  negb (String.length s =? 0)%nat && all_chars is_id_char s.

Definition len (s : string) : Z := Z.of_nat (String.length s).

(** [str(l)] for a list of strings holding no quote or backslash:
    ['a', 'b']. *)
Definition repr_str_list (l : list string) : string :=
  "[" +:+ String.concat ", " (map (fun s => "'" +:+ s +:+ "'") l) +:+ "]".

(** The truth value of a value ([not v] is its negation). *)
Definition truthy (v : pyval) : bool :=
  match v with
  | PNone => false
  | PBool b => b
  | PInt n => negb (n =? 0)
  | PFloat (FFin q) => negb (Qeq_bool q 0)
  | PFloat _ => true
  | PStr s => negb (String.length s =? 0)%nat
  | PDatetime _ => true
  end.

End Py.

Import Py.

(** [x <- m ;; k] runs [m], then [k] on its value; an exception of [m]
    is passed on. *)
Notation "x <- m ;; k" := (bind m (fun x => k))
  (at level 100, m at next level, right associativity,
   format "x  <-  m  ;;  '/' k").

(** ** Tables *)

Module Pandas.

(** A dictionary with string keys. *)
Abbreviation dict := (gmap string pyval).

(** A [DataFrame] with the default index [0 .. n-1]: the column labels in
    order and one dictionary per row. A cell that a row does not fill is
    pandas' missing value, the float NaN. *)
Record DataFrame := mkFrame {
  columns : list string;
  rows : list dict }.

Definition nan : pyval := PFloat FNan.

Definition cell (r : dict) (c : string) : pyval := default nan (r !! c).

(** [len(df)] *)
Definition nrows (df : DataFrame) : nat := length (rows df).

(** [df.empty]: some axis has length zero. *)
Definition empty (df : DataFrame) : bool :=
  match columns df, rows df with
  | [], _ => true
  | _, [] => true
  | _, _ => false
  end.

Definition has_column (df : DataFrame) (c : string) : bool :=
  bool_decide (c ∈ columns df).

(** [row[c]] for a row of [df]. *)
Definition row_getitem (df : DataFrame) (r : dict) (c : string) : result pyval :=
  if has_column df c then Ok (cell r c) else Raise (KeyError c).

(** [row.get(c, d)] for a row of [df]. *)
Definition row_get (df : DataFrame) (r : dict) (c : string) (d : pyval) : pyval :=
  if has_column df c then cell r c else d.

(** [d[k]] for a dictionary. *)
Definition getitem (d : dict) (k : string) : result pyval :=
  match d !! k with
  | Some v => Ok v
  | None => Raise (KeyError k)
  end.

(** The elementwise [==] of a column against a scalar, for one cell.
    Numbers are compared by value across [bool], [int] and [float]; a
    missing value ([None], NaN) equals nothing. *)
Definition py_eq (a b : pyval) : bool :=
  match a, b with
  | PStr s, PStr t => bool_decide (s = t)
  | PDatetime d, PDatetime e => dt_eqb d e
  | _, _ =>
      match as_number a, as_number b with
      | Some x, Some y => float_eq x y
      | _, _ => false
      end
  end.

End Pandas.

Import Pandas.

(** ** utils/validators.py *)

Module Validators.

(** The dictionary a validator returns: ['valid'] and ['message'] always,
    the other keys only where the code sets them. *)
Record verdict := mkVerdict {
  valid : bool;
  message : string;
  warning : option string;
  warnings : option (list string);
  parsed_timestamp : option datetime;
  errors : option (list string);
  total_errors : option nat;
  total_warnings : option nat }.

(** [{'valid': b, 'message': msg}] *)
Definition plain (b : bool) (msg : string) : verdict :=
  mkVerdict b msg None None None None None None.

Definition with_warning (v : verdict) (w : string) : verdict :=
  mkVerdict (valid v) (message v) (Some w) (warnings v) (parsed_timestamp v)
            (errors v) (total_errors v) (total_warnings v).

Definition with_warnings (v : verdict) (ws : list string) : verdict :=
  mkVerdict (valid v) (message v) (warning v) (Some ws) (parsed_timestamp v)
            (errors v) (total_errors v) (total_warnings v).

Definition with_parsed (v : verdict) (d : datetime) : verdict :=
  mkVerdict (valid v) (message v) (warning v) (warnings v) (Some d)
            (errors v) (total_errors v) (total_warnings v).

Definition with_errors (v : verdict) (es : list string) (n : nat) : verdict :=
  mkVerdict (valid v) (message v) (warning v) (warnings v) (parsed_timestamp v)
            (Some es) (Some n) (total_warnings v).

Definition with_total_warnings (v : verdict) (n : nat) : verdict :=
  mkVerdict (valid v) (message v) (warning v) (warnings v) (parsed_timestamp v)
            (errors v) (total_errors v) (Some n).

Definition validate_person_id (person_id : pyval) : result verdict :=
  match person_id with
  | PStr s =>
      if negb (truthy person_id) then
        Ok (plain false "Person ID is required and must be a string")
      else
        let person_id := strip s in
        if len person_id <? 2 then
          Ok (plain false "Person ID must be at least 2 characters long")
        else if len person_id >? 50 then
          Ok (plain false "Person ID must be 50 characters or less")
        else if negb (match_id_regex person_id) then
          Ok (plain false "Person ID can only contain letters, numbers, underscores, and hyphens")
        else Ok (plain true "Valid person ID")
  | _ => Ok (plain false "Person ID is required and must be a string")
  end.

Definition validate_heart_rate (heart_rate : pyval) : result verdict :=
  if negb (is_number heart_rate) then
    Ok (plain false "Heart rate must be a number")
  else
    low <- py_lt heart_rate (PInt 30) ;;
    if low then Ok (plain false "Heart rate too low (minimum 30 BPM)")
    else
      high <- py_gt heart_rate (PInt 200) ;;
      if high then Ok (plain false "Heart rate too high (maximum 200 BPM)")
      else Ok (plain true "Valid heart rate").

(** [a and b], [a or b] with Python's left-to-right short circuit. *)
Definition and_then (a : result bool) (b : result bool) : result bool :=
  x <- a ;; if x then b else Ok false.
Definition or_else (a : result bool) (b : result bool) : result bool :=
  x <- a ;; if x then Ok true else b.

Definition validate_blood_pressure (systolic diastolic : pyval) : result verdict :=
  if negb (is_number systolic) || negb (is_number diastolic) then
    Ok (plain false "Blood pressure values must be numbers")
  else
    c1 <- py_lt systolic (PInt 70) ;;
    if c1 then Ok (plain false "Systolic pressure too low (minimum 70 mmHg)") else
    c2 <- py_gt systolic (PInt 250) ;;
    if c2 then Ok (plain false "Systolic pressure too high (maximum 250 mmHg)") else
    c3 <- py_lt diastolic (PInt 40) ;;
    if c3 then Ok (plain false "Diastolic pressure too low (minimum 40 mmHg)") else
    c4 <- py_gt diastolic (PInt 150) ;;
    if c4 then Ok (plain false "Diastolic pressure too high (maximum 150 mmHg)") else
    c5 <- py_ge diastolic systolic ;;
    if c5 then Ok (plain false "Diastolic pressure must be lower than systolic pressure") else
    c6 <- and_then (py_lt systolic (PInt 90)) (py_lt diastolic (PInt 60)) ;;
    if c6 then
      Ok (with_warning (plain true "Valid blood pressure (low normal)")
                       "Blood pressure is in the low range")
    else
    c7 <- or_else (py_ge systolic (PInt 140)) (py_ge diastolic (PInt 90)) ;;
    if c7 then
      Ok (with_warning (plain true "Valid blood pressure (high)")
                       "Blood pressure is in the high range")
    else Ok (plain true "Valid blood pressure").

Definition validate_energy_level (energy_level : pyval) : result verdict :=
  if negb (is_number energy_level) then
    Ok (plain false "Energy level must be a number")
  else
    low <- py_lt energy_level (PInt 1) ;;
    if low then Ok (plain false "Energy level must be at least 1")
    else
      high <- py_gt energy_level (PInt 10) ;;
      if high then Ok (plain false "Energy level must be at most 10")
      else Ok (plain true "Valid energy level").

Definition validate_notes (notes : pyval) : result verdict :=
  match notes with
  | PNone => Ok (plain true "Valid notes (empty)")
  | PStr s =>
      if len s >? 500 then Ok (plain false "Notes must be 500 characters or less")
      else Ok (plain true "Valid notes")
  | _ => Ok (plain false "Notes must be a string")
  end.

Definition fmt_seconds : string := "%Y-%m-%d %H:%M:%S".
Definition fmt_minutes : string := "%Y-%m-%d %H:%M".

Section WithStrptime.

(** [datetime.strptime(text, format)]: the parsed datetime, or the
    exception the library raises ([ValueError] when the text does not match
    the format). *)
Variable strptime : string -> string -> result datetime.

(** The checks of [validate_timestamp] after parsing, against the clock
    reading [now]. *)
Definition check_timestamp_range (now parsed_timestamp : datetime) : result verdict :=
  if dt_gt parsed_timestamp now then
    Ok (plain false "Timestamp cannot be in the future")
  else
    ten_years_ago <- datetime_ymd (year now - 10) (month now) (day now) ;;
    if dt_lt parsed_timestamp ten_years_ago then
      Ok (plain false "Timestamp cannot be more than 10 years ago")
    else Ok (with_parsed (plain true "Valid timestamp") parsed_timestamp).

Definition validate_timestamp (now : datetime) (timestamp : pyval) : result verdict :=
  match timestamp with
  | PStr s =>
      match strptime s fmt_seconds with
      | Ok parsed_timestamp => check_timestamp_range now parsed_timestamp
      | Raise (ValueError _) =>
          match strptime s fmt_minutes with
          | Ok parsed_timestamp => check_timestamp_range now parsed_timestamp
          | Raise (ValueError _) =>
              Ok (plain false "Invalid timestamp format. Use YYYY-MM-DD HH:MM:SS or YYYY-MM-DD HH:MM")
          | Raise e => Raise e
          end
      | Raise e => Raise e
      end
  | PDatetime d => check_timestamp_range now d
  | _ => Ok (plain false "Timestamp must be a string or datetime object")
  end.

Definition validate_health_metrics
    (heart_rate systolic_bp diastolic_bp energy_level : pyval) : result verdict :=
  hr_validation <- validate_heart_rate heart_rate ;;
  if negb (valid hr_validation) then Ok hr_validation else
  bp_validation <- validate_blood_pressure systolic_bp diastolic_bp ;;
  if negb (valid bp_validation) then Ok bp_validation else
  energy_validation <- validate_energy_level energy_level ;;
  if negb (valid energy_validation) then Ok energy_validation else
  let warnings0 :=
    match warning bp_validation with
    | Some w => [w]
    | None => []
    end in
  c1 <- and_then (py_ge energy_level (PInt 8)) (py_lt heart_rate (PInt 60)) ;;
  let warnings1 :=
    if c1 then warnings0 ++ ["High energy level with low heart rate - please verify readings"]
    else warnings0 in
  c2 <- and_then (py_le energy_level (PInt 3)) (py_gt heart_rate (PInt 100)) ;;
  let warnings2 :=
    if c2 then warnings1 ++ ["Low energy with high heart rate - consider medical consultation"]
    else warnings1 in
  let result := plain true "All health metrics are valid" in
  match warnings2 with
  | [] => Ok result
  | _ => Ok (with_warnings result warnings2)
  end.

Definition required_fields : list string :=
  ["person_id"; "timestamp"; "heart_rate"; "systolic_bp"; "diastolic_bp"; "energy_level"].

(** The first required field that [entry_data] lacks, in the order of the
    loop. *)
Fixpoint first_missing (fields : list string) (entry_data : dict) : option string :=
  match fields with
  | [] => None
  | field :: rest =>
      match entry_data !! field with
      | None => Some field
      | Some _ => first_missing rest entry_data
      end
  end.

Definition validate_entry_data (now : datetime) (entry_data : dict) : result verdict :=
  match first_missing required_fields entry_data with
  | Some field => Ok (plain false ("Missing required field: " +:+ field))
  | None =>
      pid <- getitem entry_data "person_id" ;;
      person_validation <- validate_person_id pid ;;
      if negb (valid person_validation) then Ok person_validation else
      ts <- getitem entry_data "timestamp" ;;
      timestamp_validation <- validate_timestamp now ts ;;
      if negb (valid timestamp_validation) then Ok timestamp_validation else
      hr <- getitem entry_data "heart_rate" ;;
      sbp <- getitem entry_data "systolic_bp" ;;
      dbp <- getitem entry_data "diastolic_bp" ;;
      el <- getitem entry_data "energy_level" ;;
      metrics_validation <- validate_health_metrics hr sbp dbp el ;;
      if negb (valid metrics_validation) then Ok metrics_validation else
      let finish :=
        let result := plain true "Entry data is valid" in
        match warnings metrics_validation with
        | Some ws => Ok (with_warnings result ws)
        | None => Ok result
        end in
      match entry_data !! "notes" with
      | Some notes =>
          notes_validation <- validate_notes notes ;;
          if negb (valid notes_validation) then Ok notes_validation else finish
      | None => finish
      end
  end.

(** The dictionary [validate_csv_data] builds from a row. *)
Definition entry_of_row (df : DataFrame) (row : dict) : result dict :=
  person_id <- row_getitem df row "person_id" ;;
  timestamp <- row_getitem df row "timestamp" ;;
  heart_rate <- row_getitem df row "heart_rate" ;;
  systolic_bp <- row_getitem df row "systolic_bp" ;;
  diastolic_bp <- row_getitem df row "diastolic_bp" ;;
  energy_level <- row_getitem df row "energy_level" ;;
  Ok (<["person_id" := person_id]> (<["timestamp" := timestamp]>
     (<["heart_rate" := heart_rate]> (<["systolic_bp" := systolic_bp]>
     (<["diastolic_bp" := diastolic_bp]> (<["energy_level" := energy_level]>
     (<["notes" := row_get df row "notes" (PStr "")]> ∅))))))).

Definition row_label (index : nat) : string := "Row " +:+ str_nat (index + 1)%nat +:+ ": ".

(** One turn of the loop of [validate_csv_data]: the row at position
    [index], validated at clock reading [now], added to the two lists. *)
Definition validate_row (df : DataFrame) (now : datetime) (index : nat) (row : dict)
    (acc : list string * list string) : list string * list string :=
  let '(validation_errors, validation_warnings) := acc in
  try_except
    (entry_data <- entry_of_row df row ;;
     validation_result <- validate_entry_data now entry_data ;;
     if negb (valid validation_result) then
       Ok (validation_errors ++ [row_label index +:+ message validation_result],
           validation_warnings)
     else
       match warnings validation_result with
       | Some ws =>
           Ok (validation_errors,
               validation_warnings ++ map (fun w => row_label index +:+ w) ws)
       | None => Ok (validation_errors, validation_warnings)
       end)
    (fun e =>
       (validation_errors ++ [row_label index +:+ "Error validating data - " +:+ str_exn e],
        validation_warnings)).

Fixpoint validate_rows (df : DataFrame) (clock : nat -> datetime) (index : nat)
    (rs : list dict) (acc : list string * list string) : list string * list string :=
  match rs with
  | [] => acc
  | row :: rest =>
      validate_rows df clock (S index) rest (validate_row df (clock index) index row acc)
  end.

(** [clock i] is what [datetime.now()] returns while row [i] is validated. *)
Definition validate_csv_data (clock : nat -> datetime) (df : DataFrame) : result verdict :=
  let missing_columns := List.filter (fun col => negb (has_column df col)) required_fields in
  match missing_columns with
  | _ :: _ =>
      Ok (plain false ("Missing required columns: " +:+ repr_str_list missing_columns))
  | [] =>
      if empty df then Ok (plain false "No data found in CSV") else
      let '(validation_errors, validation_warnings) :=
        validate_rows df clock 0 (rows df) ([], []) in
      match validation_errors with
      | _ :: _ =>
          Ok (with_errors
                (plain false ("Validation failed with " +:+
                              str_nat (length validation_errors) +:+ " errors"))
                (take 10 validation_errors) (length validation_errors))
      | [] =>
          let result := plain true ("CSV data is valid (" +:+ str_nat (nrows df) +:+ " rows)") in
          match validation_warnings with
          | _ :: _ =>
              Ok (with_total_warnings
                    (with_warnings result (take 20 validation_warnings))
                    (length validation_warnings))
          | [] => Ok result
          end
      end
  end.

End WithStrptime.

(** *** sanitize_input *)

(** [s.replace(c, '')] for a one-character [c]. *)
Fixpoint remove_char (c : ascii) (s : string) : string :=
  match s with
  | String a s' => if Ascii.eqb a c then remove_char c s' else String a (remove_char c s')
  | EmptyString => EmptyString
  end.

(** [str_of] is Python's [str()], used on the inputs that are no string.
    The warning that is logged when the text is cut has no effect on the
    result. *)
Definition sanitize_input (str_of : pyval -> string) (input_string : pyval) : string :=
  match input_string with
  | PStr s =>
      let sanitized := strip s in
      let sanitized := remove_char Ascii.zero sanitized in
      if len sanitized >? 1000 then substring 0 1000 sanitized else sanitized
  | _ => str_of input_string
  end.

End Validators.

(** ** pages/data_handler.py *)

Module Store.

(** The pandas CSV layer, as the store uses it: the text of a file, its
    size in bytes, [pd.read_csv] (which may raise on a text that is no
    table) and [df.to_csv]. Writing is taken to succeed: a fault of the
    disk is not part of the model. *)
Class CsvIO := {
  Content : Type;
  getsize : Content -> nat;
  read_csv : Content -> result DataFrame;
  to_csv : DataFrame -> Content }.

(** Reading back the text written for [df] gives [df] again. *)
Definition round_trips `{CsvIO} (df : DataFrame) : Prop :=
  read_csv (to_csv df) = Ok df /\ (0 < getsize (to_csv df))%nat.

Section DataHandler.

Context `{CsvIO}.

(** The state of [self.csv_file]: absent, or present with some text. *)
Definition file := option Content.

(** [self.columns] *)
Definition self_columns : list string :=
  ["person_id"; "timestamp"; "heart_rate"; "systolic_bp";
   "diastolic_bp"; "energy_level"; "notes"].

(** [pd.DataFrame(columns=self.columns)] *)
Definition empty_frame : DataFrame := mkFrame self_columns [].

Definition _ensure_csv_exists (fs : file) : file :=
  match fs with
  | None => Some (to_csv empty_frame)
  | Some _ => fs
  end.

(** [df[col] = v] for a column [df] does not have yet. *)
Definition add_column (df : DataFrame) (col : string) (v : pyval) : DataFrame :=
  mkFrame (columns df ++ [col]) (map (fun r => <[col := v]> r) (rows df)).

(** One turn of the loop of [load_data]. *)
Definition backfill (df : DataFrame) (col : string) : DataFrame :=
  if negb (has_column df col) then
    add_column df col (if bool_decide (col = "notes") then PStr "" else PInt 0)
  else df.

Definition load_data (fs : file) : DataFrame :=
  try_except
    (match fs with
     | Some text =>
         if (0 <? getsize text)%nat then
           df <- read_csv text ;;
           Ok (fold_left backfill self_columns df)
         else Ok empty_frame
     | None => Ok empty_frame
     end)
    (fun _ => empty_frame).

(** [pd.DataFrame([entry_data])]: one row, the keys as columns. *)
Definition frame_of_record (entry_data : dict) : DataFrame :=
  mkFrame (map fst (map_to_list entry_data)) [entry_data].

(** [pd.concat([a, b], ignore_index=True)]: the rows of [a] then those of
    [b], over the columns of [a] followed by the new ones of [b]. *)
Definition concat (a b : DataFrame) : DataFrame :=
  mkFrame (columns a ++ List.filter (fun c => negb (has_column a c)) (columns b))
          (rows a ++ rows b).

(** Is [row] a row with this person and this timestamp? *)
Definition same_key (pid ts : pyval) (row : dict) : bool :=
  py_eq (cell row "person_id") pid && py_eq (cell row "timestamp") ts.

(** [duplicate_mask.any()] *)
Definition duplicate_mask_any (df : DataFrame) (pid ts : pyval) : bool :=
  existsb (same_key pid ts) (rows df).

Definition add_entry (entry_data : dict) (fs : file) : bool * file :=
  try_except
    (let df := load_data fs in
     let new_entry := frame_of_record entry_data in
     duplicate <-
       (if negb (empty df) then
          pid <- getitem entry_data "person_id" ;;
          ts <- getitem entry_data "timestamp" ;;
          Ok (duplicate_mask_any df pid ts)
        else Ok false) ;;
     if duplicate then Ok (false, fs)
     else
       let df := concat df new_entry in
       Ok (true, Some (to_csv df)))
    (fun _ => (false, fs)).

(** [df.loc[index, key] = value] for a row position and a column of [df]. *)
Definition set_cell (df : DataFrame) (index : nat) (key : string) (value : pyval)
    : DataFrame :=
  mkFrame (columns df) (alter (fun r => <[key := value]> r) index (rows df)).

(** One turn of the loop of [update_entry]. *)
Definition update_step (index : nat) (df : DataFrame) (item : string * pyval)
    : DataFrame :=
  if has_column df (fst item) then set_cell df index (fst item) (snd item) else df.

(** The keys of a dictionary are distinct, so the order in which the loop
    meets the items does not change what it writes. None of the operations
    from here on can raise before it writes, so its [try] is not shown. *)
Definition update_entry (index : Z) (updated_data : dict) (fs : file) : bool * file :=
  let df := load_data fs in
  if (index <? 0) || (index >=? Z.of_nat (nrows df)) then (false, fs)
  else
    let df := fold_left (update_step (Z.to_nat index)) (map_to_list updated_data) df in
    (true, Some (to_csv df)).

Definition delete_entry (index : Z) (fs : file) : bool * file :=
  let df := load_data fs in
  if (index <? 0) || (index >=? Z.of_nat (nrows df)) then (false, fs)
  else
    let df := mkFrame (columns df) (delete (Z.to_nat index) (rows df)) in
    (true, Some (to_csv df)).

(** [df[df['person_id'] != person_id]] *)
Definition other_persons (person_id : pyval) (df : DataFrame) : DataFrame :=
  mkFrame (columns df)
          (List.filter (fun r => negb (py_eq (cell r "person_id") person_id)) (rows df)).

Definition delete_person_data (person_id : pyval) (fs : file) : bool * file :=
  let df := load_data fs in
  let df := other_persons person_id df in
  (true, Some (to_csv df)).

Definition clear_all_data (fs : file) : bool * file :=
  (true, Some (to_csv empty_frame)).

End DataHandler.

(** *** get_person_data *)

(** A [datetime.date]. *)
Record date := mkDate { date_year : Z; date_month : Z; date_day : Z }.

(** [d.date()] *)
Definition date_of (d : datetime) : date := mkDate (year d) (month d) (day d).

(** [a <= b] on dates. *)
Definition date_le (a b : date) : bool :=
  negb (lex_lt [date_year b; date_month b; date_day b]
               [date_year a; date_month a; date_day a]).

Section Queries.

Context `{CsvIO}.

(** [pd.to_datetime] on one cell: a datetime, or the missing value NaT
    (here [nan]) for a missing cell; it raises on a text it cannot read. *)
Variable to_datetime : pyval -> result pyval.

(** [df.sort_values(column)], which raises on cells that cannot be
    ordered against each other. *)
Variable sort_values : string -> DataFrame -> result DataFrame.

(** [df[col] = pd.to_datetime(df[col])], row by row: the first cell that
    cannot be converted raises. *)
Fixpoint convert_column (col : string) (rs : list dict) : result (list dict) :=
  match rs with
  | [] => Ok []
  | r :: rest =>
      v <- to_datetime (cell r col) ;;
      rest' <- convert_column col rest ;;
      Ok (<[col := v]> r :: rest')
  end.

(** [row['timestamp'].date() >= start_date]; a comparison with NaT is
    false. *)
Definition on_or_after (start_date : date) (r : dict) : bool :=
  match cell r "timestamp" with
  | PDatetime d => date_le start_date (date_of d)
  | _ => false
  end.

Definition on_or_before (end_date : date) (r : dict) : bool :=
  match cell r "timestamp" with
  | PDatetime d => date_le (date_of d) end_date
  | _ => false
  end.

(** [df[df['person_id'] == person_id]] *)
Definition rows_of_person (person_id : pyval) (df : DataFrame) : DataFrame :=
  mkFrame (columns df)
          (List.filter (fun r => py_eq (cell r "person_id") person_id) (rows df)).

Definition keep_rows (f : dict -> bool) (df : DataFrame) : DataFrame :=
  mkFrame (columns df) (List.filter f (rows df)).

(** A date bound that is not given is [None]; a date is always true. *)
Definition get_person_data (person_id : pyval) (start_date end_date : option date)
    (fs : file) : DataFrame :=
  try_except
    (let df := load_data fs in
     if empty df then Ok empty_frame else
     let person_data := rows_of_person person_id df in
     if empty person_data then Ok empty_frame else
     person_data <-
       (if bool_decide (is_Some start_date) || bool_decide (is_Some end_date) then
          converted <- convert_column "timestamp" (rows person_data) ;;
          let person_data := mkFrame (columns person_data) converted in
          let person_data :=
            match start_date with
            | Some d => keep_rows (on_or_after d) person_data
            | None => person_data
            end in
          let person_data :=
            match end_date with
            | Some d => keep_rows (on_or_before d) person_data
            | None => person_data
            end in
          Ok person_data
        else Ok person_data) ;;
     sort_values "timestamp" person_data)
    (fun _ => empty_frame).

End Queries.

(** A small file model to run the store on: a file is blank, holds text
    that is no table, or holds a table, which is read back as written. *)
Inductive text :=
| Blank
| Garbage
| Table (df : DataFrame).

#[export] Instance text_csv : CsvIO := {|
  Content := text;
  getsize t := match t with Blank => 0%nat | Garbage => 1%nat | Table df => S (nrows df) end;
  read_csv t :=
    match t with
    | Table df => Ok df
    | _ => Raise (ParserError "Error tokenizing data")
    end;
  to_csv df := Table df |}.

End Store.

(** ** A parser for the two formats, to run the validators on texts *)

Module Strptime.

Definition digit (c : ascii) : option Z :=
  let n := Z.of_nat (nat_of_ascii c) in
  if (48 <=? n) && (n <=? 57) then Some (n - 48) else None.

(** Reads exactly [k] decimal digits. *)
Fixpoint digits (k : nat) (acc : Z) (s : string) : option (Z * string) :=
  match k with
  | O => Some (acc, s)
  | S k' =>
      match s with
      | String c s' =>
          match digit c with
          | Some d => digits k' (10 * acc + d) s'
          | None => None
          end
      | EmptyString => None
      end
  end.

(** Reads [k] digits, then the separator [sep]. *)
Definition field (k : nat) (sep : ascii) (s : string) : option (Z * string) :=
  match digits k 0 s with
  | Some (n, String c s') => if Ascii.eqb c sep then Some (n, s') else None
  | _ => None
  end.

(** Reads [k] digits up to the end of the text. *)
Definition last_field (k : nat) (s : string) : option Z :=
  match digits k 0 s with
  | Some (n, EmptyString) => Some n
  | _ => None
  end.

Definition opt_bind {A B} (m : option A) (k : A -> option B) : option B :=
  match m with
  | Some a => k a
  | None => None
  end.

(** [YYYY-MM-DD HH:MM:SS] *)
Definition parse_seconds (s : string) : option datetime :=
  opt_bind (field 4 "-" s) (fun '(y, s) =>
  opt_bind (field 2 "-" s) (fun '(mo, s) =>
  opt_bind (field 2 " " s) (fun '(d, s) =>
  opt_bind (field 2 ":" s) (fun '(h, s) =>
  opt_bind (field 2 ":" s) (fun '(mi, s) =>
  opt_bind (last_field 2 s) (fun sec =>
  Some (mkDatetime y mo d h mi sec 0))))))).

(** [YYYY-MM-DD HH:MM] *)
Definition parse_minutes (s : string) : option datetime :=
  opt_bind (field 4 "-" s) (fun '(y, s) =>
  opt_bind (field 2 "-" s) (fun '(mo, s) =>
  opt_bind (field 2 " " s) (fun '(d, s) =>
  opt_bind (field 2 ":" s) (fun '(h, s) =>
  opt_bind (last_field 2 s) (fun mi =>
  Some (mkDatetime y mo d h mi 0 0)))))).

Definition no_match : exn := ValueError "time data does not match format".

(** [strptime] on zero-padded texts, for the two formats of the validator.
    (The library also accepts fields without the padding; the theorems
    below hold for every parser, this one runs the examples.) *)
Definition strptime (s fmt : string) : result datetime :=
  let parsed :=
    if bool_decide (fmt = Validators.fmt_seconds) then parse_seconds s
    else if bool_decide (fmt = Validators.fmt_minutes) then parse_minutes s
    else None in
  match parsed with
  | Some d => if valid_datetime d then Ok d else Raise no_match
  | None => Raise no_match
  end.

End Strptime.

(** ** Vocabulary of the properties *)

Module Props.

Import Validators Store.

(** The float of an integer literal. *)
Definition of_int (n : Z) : pyfloat := FFin (inject_Z n).

(** [lo <= v <= hi] for a value that is a number. *)
Definition within (lo hi : Z) (v : pyval) : Prop :=
  exists x, as_number v = Some x /\
            float_le (of_int lo) x = true /\ float_le x (of_int hi) = true.

(** The condition the specification gives for a valid blood pressure. *)
Definition bp_in_bounds (systolic diastolic : pyval) : Prop :=
  exists x y, as_number systolic = Some x /\ as_number diastolic = Some y /\
    float_le (of_int 70) x = true /\ float_le x (of_int 250) = true /\
    float_le (of_int 40) y = true /\ float_le y (of_int 150) = true /\
    float_lt y x = true.

Definition is_nan (v : pyval) : bool :=
  match v with PFloat FNan => true | _ => false end.

(** The first verdict of a list that is not valid. *)
Definition first_failure (vs : list verdict) : option verdict :=
  List.find (fun v => negb (valid v)) vs.

(** What the parsing stage of [validate_timestamp] makes of its argument. *)
Inductive parses_to (strptime : string -> string -> result datetime)
    : pyval -> datetime -> Prop :=
| parses_datetime d :
    parses_to strptime (PDatetime d) d
| parses_seconds s d :
    strptime s fmt_seconds = Ok d ->
    parses_to strptime (PStr s) d
| parses_minutes s msg d :
    strptime s fmt_seconds = Raise (ValueError msg) ->
    strptime s fmt_minutes = Ok d ->
    parses_to strptime (PStr s) d.

(** "Now minus ten calendar years" with the time of day kept, as the
    specification words the lower bound. *)
Definition ten_years_before (now : datetime) : datetime :=
  mkDatetime (year now - 10) (month now) (day now)
             (hour now) (minute now) (second now) (microsecond now).

(** Midnight of the date ten years before [now]. *)
Definition midnight_ten_years_before (now : datetime) : datetime :=
  mkDatetime (year now - 10) (month now) (day now) 0 0 0 0.

(** What one row alone adds to the error and warning lists. *)
Definition row_outcome (strptime : string -> string -> result datetime)
    (df : DataFrame) (clock : nat -> datetime) (index : nat) (row : dict)
    : list string * list string :=
  validate_row strptime df (clock index) index row ([], []).

(** All row errors, and all row warnings, of a table, in row order. *)
Definition all_outcomes (strptime : string -> string -> result datetime)
    (df : DataFrame) (clock : nat -> datetime) : list (list string * list string) :=
  imap (row_outcome strptime df clock) (rows df).

Definition all_errors strptime df clock : list string :=
  List.concat (map fst (all_outcomes strptime df clock)).

Definition all_warnings strptime df clock : list string :=
  List.concat (map snd (all_outcomes strptime df clock)).


Section WithCsv.
Context `{CsvIO}.


(** The frame [add_entry] writes when it accepts [entry_data]. *)
Definition appended (entry_data : dict) (fs : file) : DataFrame :=
  concat (load_data fs) (frame_of_record entry_data).


End WithCsv.

End Props.

Import Validators Store Props.

(** ** Data for the examples *)

Module Examples.

(** 2024-06-15 15:00:00 *)
Definition afternoon_2024_06_15 : datetime := mkDatetime 2024 6 15 15 0 0 0.

(** 2024-02-29 12:00:00 *)
Definition leap_day_2024 : datetime := mkDatetime 2024 2 29 12 0 0 0.

(** 2014-06-15 03:00:00 *)
Definition early_2014_06_15 : datetime := mkDatetime 2014 6 15 3 0 0 0.

Definition record (person_id timestamp : string) (hr sbp dbp energy : Z)
    (notes : string) : dict :=
  list_to_map [("person_id", PStr person_id); ("timestamp", PStr timestamp);
               ("heart_rate", PInt hr); ("systolic_bp", PInt sbp);
               ("diastolic_bp", PInt dbp); ("energy_level", PInt energy);
               ("notes", PStr notes)].

(** Scenario A of the specification. *)
Definition john_8am : dict :=
  record "john_doe" "2024-01-01 08:00:00" 70 120 80 5 "".

Definition john_9am : dict :=
  record "john_doe" "2024-01-01 09:00:00" 72 118 79 6 "".

Definition mary_8am : dict :=
  record "mary" "2024-01-01 08:00:00" 64 110 70 7 "rested".

(** A heart rate out of range. *)
Definition john_hr_999 : dict :=
  record "john_doe" "2024-01-02 08:00:00" 999 120 80 5 "".

(** High energy with a low heart rate: valid, with a warning. *)
Definition john_lively : dict :=
  record "john_doe" "2024-01-03 08:00:00" 55 120 80 9 "".

Definition table (rs : list dict) : DataFrame := mkFrame self_columns rs.

Definition clock_afternoon : nat -> datetime := fun _ => afternoon_2024_06_15.


(** No file yet, then john at 8 and mary at 8 added. *)
Definition store_two_persons : file (H := text_csv) :=
  snd (add_entry mary_8am (snd (add_entry john_8am None))).



End Examples.

Import Examples.

(** ** Vocabulary of the further properties *)

Module Invariants.

(** A text that [validate_person_id] accepts: between 2 and 50 characters
    once stripped, all of them letters, digits, underscores or hyphens. *)
Definition well_formed_id (s : string) : Prop :=
  2 <= len (strip s) <= 50 /\ all_chars is_id_char (strip s) = true.

(** [lo <= x <= hi], or [x] is NaN: what the two comparisons of a bounded
    numeric validator let through. *)
Definition between_or_nan (lo hi : Z) (x : pyfloat) : Prop :=
  x = FNan \/ (float_le (of_int lo) x = true /\ float_le x (of_int hi) = true).

(** The two warning bands of the blood pressure. *)
Definition low_band (x y : pyfloat) : bool :=
  float_lt x (of_int 90) && float_lt y (of_int 60).
Definition high_band (x y : pyfloat) : bool :=
  float_le (of_int 140) x || float_le (of_int 90) y.

Definition low_warning : string := "Blood pressure is in the low range".
Definition high_warning : string := "Blood pressure is in the high range".
Definition lively_warning : string :=
  "High energy level with low heart rate - please verify readings".
Definition weary_warning : string :=
  "Low energy with high heart rate - consider medical consultation".

(** The warnings [validate_health_metrics] collects for a heart rate [x],
    an energy level [e] and the warning of the blood pressure. *)
Definition metric_warnings (bp_warning : option string) (x e : pyfloat) : list string :=
  option_list bp_warning
  ++ (if float_le (of_int 8) e && float_lt x (of_int 60) then [lively_warning] else [])
  ++ (if float_le e (of_int 3) && float_lt (of_int 100) x then [weary_warning] else []).

(** Does the character occur in the text? *)
Fixpoint occurs (c : ascii) (s : string) : bool :=
  match s with
  | String a s' => Ascii.eqb a c || occurs c s'
  | EmptyString => false
  end.

(** No two rows at different positions have the same person and
    timestamp. *)
Definition unique_keys (df : DataFrame) : Prop :=
  forall i j ri rj,
    rows df !! i = Some ri -> rows df !! j = Some rj -> i <> j ->
    same_key (cell ri "person_id") (cell ri "timestamp") rj = false.


(** What each column of the store is filled with when a file lacks it. *)
Definition fill_value (col : string) : pyval :=
  if bool_decide (col = "notes") then PStr "" else PInt 0.

(** The frame [delete_entry] writes for an in-bounds position. *)
Definition without_row `{CsvIO} (index : nat) (fs : file) : DataFrame :=
  mkFrame (columns (load_data fs)) (delete index (rows (load_data fs))).

(** The rows a query with these date bounds keeps, once the timestamps are
    datetimes. *)
Definition within_dates (start_date end_date : option date) (r : dict) : bool :=
  from_option (fun d => on_or_after d r) true start_date &&
  from_option (fun d => on_or_before d r) true end_date.

(** [sort_values] returns, for every frame, a frame with the same columns
    and the same rows in some order. *)
Definition reorders (sort_values : string -> DataFrame -> result DataFrame) : Prop :=
  forall col df, exists sorted,
    sort_values col df = Ok sorted /\
    columns sorted = columns df /\ rows sorted ≡ₚ rows df.

(** A sort of the rows of a list of dictionaries by their timestamp text,
    to run [get_person_data]. *)
Definition timestamp_text (r : dict) : string :=
  match cell r "timestamp" with
  | PStr s => s
  | _ => ""
  end.

Fixpoint insert_by_timestamp (r : dict) (rs : list dict) : list dict :=
  match rs with
  | [] => [r]
  | x :: rest =>
      if String.leb (timestamp_text r) (timestamp_text x) then r :: rs
      else x :: insert_by_timestamp r rest
  end.

Definition sort_by_timestamp (column : string) (df : DataFrame) : result DataFrame :=
  Ok (mkFrame (columns df) (foldr insert_by_timestamp [] (rows df))).

(** A conversion of a timestamp cell with the parser of the examples. *)
Definition to_datetime_text (v : pyval) : result pyval :=
  match v with
  | PStr s =>
      match Strptime.strptime s fmt_seconds with
      | Ok d => Ok (PDatetime d)
      | Raise e => Raise e
      end
  | PDatetime d => Ok v
  | _ => Ok nan
  end.

(** A table written before the columns [energy_level] and [notes]
    existed, and a file that holds it. *)
Definition legacy_row : dict :=
  list_to_map [("person_id", PStr "john_doe"); ("timestamp", PStr "2023-05-01 07:30:00");
               ("heart_rate", PInt 61); ("systolic_bp", PInt 118);
               ("diastolic_bp", PInt 77)].

Definition legacy_table : DataFrame :=
  mkFrame ["person_id"; "timestamp"; "heart_rate"; "systolic_bp"; "diastolic_bp"]
          [legacy_row].

(** The store after john's entry of 8 o'clock only. *)
Definition store_john : file (H := text_csv) := snd (add_entry john_8am None).

(** The store with john's entries of 8 and of 9 o'clock and mary's. *)
Definition store_three : file (H := text_csv) :=
  snd (add_entry john_9am store_two_persons).

(** 2024-01-01 08:00:00 as a datetime. *)
Definition eight_o_clock : datetime := mkDatetime 2024 1 1 8 0 0 0.

End Invariants.

Import Invariants.

(** ** Numbers and comparisons *)

#[local] Arguments float_lt : simpl never.
#[local] Arguments float_le : simpl never.
#[local] Arguments of_int : simpl never.

Lemma float_le_not_lt a b : float_le a b = true -> float_lt b a = false.
Proof.
  destruct a as [|[]|p], b as [|[]|q];
    cbv beta iota delta [float_le float_lt]; try done.
  rewrite <- (Qcompare_antisym p q). by destruct (p ?= q)%Q.
Qed.

Lemma float_not_lt_le a b :
  a <> FNan -> b <> FNan -> float_lt b a = false -> float_le a b = true.
Proof.
  destruct a as [|[]|p], b as [|[]|q];
    cbv beta iota delta [float_le float_lt]; try done.
  rewrite <- (Qcompare_antisym p q). by destruct (p ?= q)%Q.
Qed.

Lemma float_lt_not_le a b : float_lt a b = true -> float_le b a = false.
Proof.
  destruct a as [|[]|p], b as [|[]|q];
    cbv beta iota delta [float_le float_lt]; try done.
  rewrite <- (Qcompare_antisym p q). by destruct (p ?= q)%Q.
Qed.

Lemma float_not_le_lt a b :
  a <> FNan -> b <> FNan -> float_le b a = false -> float_lt a b = true.
Proof.
  destruct a as [|[]|p], b as [|[]|q];
    cbv beta iota delta [float_le float_lt]; try done.
  rewrite <- (Qcompare_antisym p q). by destruct (p ?= q)%Q.
Qed.

Lemma float_le_not_nan a b : float_le a b = true -> a <> FNan /\ b <> FNan.
Proof. by destruct a as [|[]|p], b as [|[]|q]. Qed.

Lemma py_lt_number v x n :
  as_number v = Some x -> py_lt v (PInt n) = Ok (float_lt x (of_int n)).
Proof. intros Hx. unfold py_lt. by rewrite Hx. Qed.

Lemma py_gt_number v x n :
  as_number v = Some x -> py_gt v (PInt n) = Ok (float_lt (of_int n) x).
Proof. intros Hx. unfold py_gt, py_lt. by rewrite Hx. Qed.

Lemma py_le_number v x n :
  as_number v = Some x -> py_le v (PInt n) = Ok (float_le x (of_int n)).
Proof. intros Hx. unfold py_le. by rewrite Hx. Qed.

Lemma py_ge_number v x n :
  as_number v = Some x -> py_ge v (PInt n) = Ok (float_le (of_int n) x).
Proof. intros Hx. unfold py_ge, py_le. by rewrite Hx. Qed.

Lemma is_number_Some v :
  is_number v = true -> exists x, as_number v = Some x.
Proof. unfold is_number. destruct (as_number v); [eauto | done]. Qed.

Lemma is_number_as v x : as_number v = Some x -> is_number v = true.
Proof. unfold is_number. by intros ->. Qed.

(** ** The field validators *)

(** A bounded numeric validator with floor [lo] and ceiling [hi] accepts
    exactly what lies between them, unless the value is NaN. *)
Lemma validate_heart_rate_within v :
  within 30 200 v -> validate_heart_rate v = Ok (plain true "Valid heart rate").
Proof.
  intros (x & Hx & Hlo & Hhi). unfold validate_heart_rate.
  rewrite (is_number_as _ _ Hx). simpl.
  rewrite (py_lt_number _ _ _ Hx), (py_gt_number _ _ _ Hx). simpl.
  by rewrite (float_le_not_lt _ _ Hlo), (float_le_not_lt _ _ Hhi).
Qed.

Lemma validate_energy_level_within v :
  within 1 10 v -> validate_energy_level v = Ok (plain true "Valid energy level").
Proof.
  intros (x & Hx & Hlo & Hhi). unfold validate_energy_level.
  rewrite (is_number_as _ _ Hx). simpl.
  rewrite (py_lt_number _ _ _ Hx), (py_gt_number _ _ _ Hx). simpl.
  by rewrite (float_le_not_lt _ _ Hlo), (float_le_not_lt _ _ Hhi).
Qed.

(** C10. The numeric field validators accept every [int] and every
    [float] within the bounds, not only integers: a heart rate between 30
    and 200 and an energy level between 1 and 10 are valid whatever their
    numeric type, and so are the floats 70.5 and 7.5. *)
Theorem numeric_validators_accept_floats (hr energy : pyval) :
  within 30 200 hr -> within 1 10 energy ->
  (exists v, validate_heart_rate hr = Ok v /\ valid v = true) /\
  (exists v, validate_energy_level energy = Ok v /\ valid v = true) /\
  (exists v, validate_heart_rate (PFloat (FFin 70.5)) = Ok v /\ valid v = true) /\
  (exists v, validate_energy_level (PFloat (FFin 7.5)) = Ok v /\ valid v = true).
Proof.
  intros Hhr Hen. repeat split.
  - rewrite (validate_heart_rate_within _ Hhr). by eexists.
  - rewrite (validate_energy_level_within _ Hen). by eexists.
  - by eexists.
  - by eexists.
Qed.

Lemma numeric_validators_accept_floats_witness :
  (exists v, validate_heart_rate (PFloat (FFin 70.5)) = Ok v /\ valid v = true) /\
  (exists v, validate_energy_level (PFloat (FFin 7.5)) = Ok v /\ valid v = true).
Proof.
  refine (let H := numeric_validators_accept_floats
                     (PFloat (FFin 70.5)) (PFloat (FFin 7.5)) _ _ in
          conj (proj1 H) (proj1 (proj2 H))).
  - exists (FFin 70.5). repeat split; reflexivity.
  - exists (FFin 7.5). repeat split; reflexivity.
Defined.

Lemma py_lt_numbers a b x y :
  as_number a = Some x -> as_number b = Some y -> py_lt a b = Ok (float_lt x y).
Proof. intros Hx Hy. unfold py_lt. by rewrite Hx, Hy. Qed.

Lemma py_le_numbers a b x y :
  as_number a = Some x -> as_number b = Some y -> py_le a b = Ok (float_le x y).
Proof. intros Hx Hy. unfold py_le. by rewrite Hx, Hy. Qed.

Lemma as_number_int n : as_number (PInt n) = Some (of_int n).
Proof. reflexivity. Qed.

(** Rewrites every comparison of two numbers into the float comparison. *)
Ltac compare_numbers :=
  unfold py_gt, py_ge;
  repeat match goal with
  | |- context [py_lt ?a ?b] =>
      erewrite (py_lt_numbers a b) by (eassumption || apply as_number_int)
  | |- context [py_le ?a ?b] =>
      erewrite (py_le_numbers a b) by (eassumption || apply as_number_int)
  end.

Lemma validate_heart_rate_total v : exists r, validate_heart_rate v = Ok r.
Proof.
  unfold validate_heart_rate.
  destruct (is_number v) eqn:Hn; cbn [negb]; [|by eexists].
  destruct (is_number_Some _ Hn) as [x Hx]. compare_numbers. cbn [bind].
  destruct (float_lt x (of_int 30)); [by eexists|].
  cbn [bind]. destruct (float_lt (of_int 200) x); by eexists.
Qed.

Lemma validate_energy_level_total v : exists r, validate_energy_level v = Ok r.
Proof.
  unfold validate_energy_level.
  destruct (is_number v) eqn:Hn; cbn [negb]; [|by eexists].
  destruct (is_number_Some _ Hn) as [x Hx]. compare_numbers. cbn [bind].
  destruct (float_lt x (of_int 1)); [by eexists|].
  cbn [bind]. destruct (float_lt (of_int 10) x); by eexists.
Qed.

(** The verdict of [validate_blood_pressure], as the five comparisons of
    the code decide it. *)
Lemma validate_blood_pressure_cases s d :
  exists r, validate_blood_pressure s d = Ok r /\
    (valid r = true <->
     exists x y, as_number s = Some x /\ as_number d = Some y /\
       float_lt x (of_int 70) = false /\ float_lt (of_int 250) x = false /\
       float_lt y (of_int 40) = false /\ float_lt (of_int 150) y = false /\
       float_le x y = false).
Proof.
  unfold validate_blood_pressure.
  destruct (is_number s) eqn:Hs; cbn [negb orb].
  2:{ eexists; split; [done|]. split; [done|].
      intros (x & y & Hx & _). by rewrite (is_number_as _ _ Hx) in Hs. }
  destruct (is_number d) eqn:Hd; cbn [negb orb].
  2:{ eexists; split; [done|]. split; [done|].
      intros (x & y & _ & Hy & _). by rewrite (is_number_as _ _ Hy) in Hd. }
  destruct (is_number_Some _ Hs) as [x Hx], (is_number_Some _ Hd) as [y Hy].
  unfold and_then, or_else. compare_numbers. cbn [bind].
  destruct (float_lt x (of_int 70)) eqn:C1; cbn [bind].
  { eexists; split; [done|]. split; [done|].
    intros (x' & y' & Hx' & Hy' & D1 & D2 & D3 & D4 & D5). congruence. }
  destruct (float_lt (of_int 250) x) eqn:C2; cbn [bind].
  { eexists; split; [done|]. split; [done|].
    intros (x' & y' & Hx' & Hy' & D1 & D2 & D3 & D4 & D5). congruence. }
  destruct (float_lt y (of_int 40)) eqn:C3; cbn [bind].
  { eexists; split; [done|]. split; [done|].
    intros (x' & y' & Hx' & Hy' & D1 & D2 & D3 & D4 & D5). congruence. }
  destruct (float_lt (of_int 150) y) eqn:C4; cbn [bind].
  { eexists; split; [done|]. split; [done|].
    intros (x' & y' & Hx' & Hy' & D1 & D2 & D3 & D4 & D5). congruence. }
  destruct (float_le x y) eqn:C5; cbn [bind].
  { eexists; split; [done|]. split; [done|].
    intros (x' & y' & Hx' & Hy' & D1 & D2 & D3 & D4 & D5). congruence. }
  assert (Hgoal : exists x0 y0, as_number s = Some x0 /\ as_number d = Some y0 /\
       float_lt x0 (of_int 70) = false /\ float_lt (of_int 250) x0 = false /\
       float_lt y0 (of_int 40) = false /\ float_lt (of_int 150) y0 = false /\
       float_le x0 y0 = false) by (exists x, y; done).
  destruct (float_lt x (of_int 90)); cbn [bind];
    [destruct (float_lt y (of_int 60)); cbn [bind]|];
    try (eexists; split; [done|]; by split);
    (destruct (float_le (of_int 140) x); cbn [bind];
     [|destruct (float_le (of_int 90) y); cbn [bind]]);
    eexists; split; try done; by split.
Qed.

Lemma validate_blood_pressure_total s d : exists r, validate_blood_pressure s d = Ok r.
Proof. destruct (validate_blood_pressure_cases s d) as (r & Hr & _). eauto. Qed.

(** Away from NaN, [validate_blood_pressure] accepts exactly the pairs the
    specification describes. *)
Lemma validate_blood_pressure_iff s d :
  is_nan s = false -> is_nan d = false ->
  exists r, validate_blood_pressure s d = Ok r /\
            (valid r = true <-> bp_in_bounds s d).
Proof.
  intros Hs Hd. destruct (validate_blood_pressure_cases s d) as (r & Hr & Hv).
  exists r. split; [done|]. rewrite Hv. unfold bp_in_bounds.
  assert (Hnan : forall v x, is_nan v = false -> as_number v = Some x -> x <> FNan).
  { intros v x Hn Hx ->. destruct v as [| [] | | [] | |]; simplify_eq/=. }
  assert (Hint : forall n, of_int n <> FNan) by done.
  split; intros (x & y & Hx & Hy & C1 & C2 & C3 & C4 & C5); exists x, y;
    pose proof (Hnan _ _ Hs Hx); pose proof (Hnan _ _ Hd Hy); repeat split;
    auto using float_not_lt_le, float_not_le_lt, float_le_not_lt, float_lt_not_le.
Qed.

(** C2, at the input where the code departs from it. Both values are
    floats, so the numeric test passes; every comparison with NaN is false,
    so no bound rejects them: the verdict is valid although [70 <= sys]
    does not hold. *)
Theorem validate_blood_pressure_accepts_nan :
  validate_blood_pressure (PFloat FNan) (PFloat FNan)
    = Ok (plain true "Valid blood pressure") /\
  py_le (PInt 70) (PFloat FNan) = Ok false /\
  ~ bp_in_bounds (PFloat FNan) (PFloat FNan).
Proof.
  split; [reflexivity|]. split; [reflexivity|].
  intros (x & y & Hx & _ & Hlo & _). by simplify_eq/=.
Qed.

Lemma validate_heart_rate_valid_number v r :
  validate_heart_rate v = Ok r -> valid r = true -> is_number v = true.
Proof.
  unfold validate_heart_rate. destruct (is_number v); [done|].
  cbn [negb]. by intros [= <-].
Qed.

Lemma validate_energy_level_valid_number v r :
  validate_energy_level v = Ok r -> valid r = true -> is_number v = true.
Proof.
  unfold validate_energy_level. destruct (is_number v); [done|].
  cbn [negb]. by intros [= <-].
Qed.

(** ** The composite check *)

(** C3. [validate_health_metrics] runs the three sub-checks in the order
    heart rate, blood pressure, energy level (each of them returns a
    verdict). Its verdict is invalid exactly when some sub-check fails, and
    it is then the verdict of the first failing sub-check, unmodified, so
    with that sub-check's message. *)
Theorem validate_health_metrics_first_failure (hr sbp dbp el : pyval) :
  exists v1 v2 v3 v,
    validate_heart_rate hr = Ok v1 /\
    validate_blood_pressure sbp dbp = Ok v2 /\
    validate_energy_level el = Ok v3 /\
    validate_health_metrics hr sbp dbp el = Ok v /\
    valid v = forallb valid [v1; v2; v3] /\
    match first_failure [v1; v2; v3] with
    | Some failing => v = failing /\ message v = message failing
    | None => valid v = true
    end.
Proof.
  destruct (validate_heart_rate_total hr) as [v1 H1].
  destruct (validate_blood_pressure_total sbp dbp) as [v2 H2].
  destruct (validate_energy_level_total el) as [v3 H3].
  exists v1, v2, v3. unfold validate_health_metrics, first_failure.
  rewrite H1. cbn [bind forallb find].
  destruct (valid v1) eqn:E1; cbn [negb andb]; [|by exists v1; rewrite E1].
  rewrite H2. cbn [bind].
  destruct (valid v2) eqn:E2; cbn [negb andb]; [|by exists v2; rewrite E2].
  rewrite H3. cbn [bind].
  destruct (valid v3) eqn:E3; cbn [negb andb]; [|by exists v3; rewrite E3].
  destruct (is_number_Some _ (validate_heart_rate_valid_number _ _ H1 E1)) as [x Hx].
  destruct (is_number_Some _ (validate_energy_level_valid_number _ _ H3 E3)) as [e He].
  unfold and_then. compare_numbers. cbn [bind].
  destruct (float_le (of_int 8) e); cbn [bind];
    destruct (float_le e (of_int 3)); cbn [bind];
    repeat match goal with
    | |- context [float_lt ?a ?b] => destruct (float_lt a b); cbn [bind]
    end;
    destruct (warning v2); cbn [app]; by eexists.
Qed.

(** ** Timestamps *)

Lemma lex_lt_irrefl l : lex_lt l l = false.
Proof.
  induction l as [|x l IH]; [done|]. cbn [lex_lt].
  rewrite Z.ltb_irrefl, Z.eqb_refl. by rewrite IH.
Qed.

Lemma dt_lt_irrefl d : dt_lt d d = false.
Proof. apply lex_lt_irrefl. Qed.

(** The lower bound of the code lies before the clock reading it is
    computed from. *)
Lemma midnight_before_now now : dt_lt now (midnight_ten_years_before now) = false.
Proof.
  unfold dt_lt, dt_fields, midnight_ten_years_before. cbn [lex_lt year].
  replace (year now <? year now - 10) with false by (symmetry; apply Z.ltb_ge; lia).
  by replace (year now =? year now - 10) with false by (symmetry; apply Z.eqb_neq; lia).
Qed.

Lemma datetime_ymd_Ok y m d bound :
  datetime_ymd y m d = Ok bound -> bound = mkDatetime y m d 0 0 0 0.
Proof.
  unfold datetime_ymd. repeat case_match; by intros [= <-].
Qed.

Lemma validate_timestamp_parsed strptime now ts parsed :
  parses_to strptime ts parsed ->
  validate_timestamp strptime now ts = check_timestamp_range now parsed.
Proof.
  intros [d|s d Hs|s msg d Hs Hm]; cbn [validate_timestamp]; [done|..].
  - by rewrite Hs.
  - by rewrite Hs, Hm.
Qed.

(** An instant on the date ten years before [now] is not after [now] and
    not before the midnight that starts that date. *)
Lemma same_date_within now parsed :
  valid_datetime parsed = true ->
  year parsed = year now - 10 -> month parsed = month now -> day parsed = day now ->
  dt_gt parsed now = false /\ dt_lt parsed (midnight_ten_years_before now) = false.
Proof.
  intros Hv Hy Hm Hd. unfold valid_datetime, valid_time in Hv.
  apply andb_prop in Hv as [_ Hv].
  repeat (apply andb_prop in Hv as [Hv ?]).
  repeat match goal with
  | Hle : (_ <=? _) = true |- _ => apply Z.leb_le in Hle
  end.
  unfold dt_gt, dt_lt, dt_fields, midnight_ten_years_before.
  cbn [lex_lt year month day hour minute second microsecond].
  rewrite Hy, Hm, Hd. split.
  - replace (year now <? year now - 10) with false by (symmetry; apply Z.ltb_ge; lia).
    by replace (year now =? year now - 10) with false by (symmetry; apply Z.eqb_neq; lia).
  - rewrite !Z.ltb_irrefl, !Z.eqb_refl. cbn [orb andb].
    repeat match goal with
    | |- context [?a <? 0] =>
        replace (a <? 0) with false by (symmetry; apply Z.ltb_ge; lia)
    end.
    cbn [orb]. by rewrite !andb_false_r.
Qed.

(** C4, as amended. When the date ten years before [now] exists, a
    parseable timestamp is rejected exactly when its instant is strictly
    after [now] or strictly before midnight of that date (the time of day of
    [now] plays no part in the lower bound): an instant equal to [now] is
    valid, and so is every instant on the date ten years before [now],
    whatever its time of day. *)
Theorem validate_timestamp_bounds strptime (now : datetime) (ts : pyval)
    (parsed bound : datetime) :
  parses_to strptime ts parsed ->
  datetime_ymd (year now - 10) (month now) (day now) = Ok bound ->
  exists v, validate_timestamp strptime now ts = Ok v /\
    bound = midnight_ten_years_before now /\
    (valid v = false <-> dt_gt parsed now = true \/ dt_lt parsed bound = true) /\
    (parsed = now -> valid v = true) /\
    (valid_datetime parsed = true ->
     year parsed = year now - 10 -> month parsed = month now -> day parsed = day now ->
     valid v = true).
Proof.
  intros Hp Hb. rewrite (validate_timestamp_parsed _ _ _ _ Hp).
  unfold check_timestamp_range. rewrite Hb. cbn [bind].
  pose proof (datetime_ymd_Ok _ _ _ _ Hb) as Hbound.
  fold (midnight_ten_years_before now) in Hbound.
  destruct (dt_gt parsed now) eqn:Hgt.
  { eexists. split; [done|]. split; [done|]. split; [by split; auto|]. split.
    - intros ->. unfold dt_gt in Hgt. by rewrite dt_lt_irrefl in Hgt.
    - intros Hv Hy Hm Hd. destruct (same_date_within now parsed Hv Hy Hm Hd).
      congruence. }
  destruct (dt_lt parsed bound) eqn:Hlt.
  { eexists. split; [done|]. split; [done|]. split; [by split; auto|]. split.
    - intros ->. pose proof (midnight_before_now now). congruence.
    - intros Hv Hy Hm Hd. destruct (same_date_within now parsed Hv Hy Hm Hd).
      congruence. }
  eexists. split; [done|]. split; [done|]. split; [|done].
  cbn. split; [done|]. by intros [|].
Qed.

Lemma validate_timestamp_bounds_witness :
  exists v, validate_timestamp Strptime.strptime afternoon_2024_06_15
              (PStr "2024-06-15 15:00:01") = Ok v /\ valid v = false.
Proof.
  destruct (validate_timestamp_bounds Strptime.strptime afternoon_2024_06_15
              (PStr "2024-06-15 15:00:01")
              (mkDatetime 2024 6 15 15 0 1 0) (mkDatetime 2014 6 15 0 0 0 0))
    as (v & Hv & _ & Hiff & _ & _).
  - apply parses_seconds. reflexivity.
  - reflexivity.
  - exists v. split; [exact Hv|]. apply Hiff. left. reflexivity.
Defined.

(** C4, as worded, fails. At 15:00 on 2024-06-15 the timestamp
    2014-06-15 03:00:00 lies strictly before "now minus ten calendar
    years" (2014-06-15 15:00:00), yet the verdict is valid. *)
Lemma validate_timestamp_keeps_early_hours :
  dt_lt early_2014_06_15 (ten_years_before afternoon_2024_06_15) = true /\
  validate_timestamp Strptime.strptime afternoon_2024_06_15 (PStr "2014-06-15 03:00:00")
    = Ok (with_parsed (plain true "Valid timestamp") early_2014_06_15) /\
  ~ (forall now parsed v,
       check_timestamp_range now parsed = Ok v ->
       (valid v = false <->
        dt_gt parsed now = true \/ dt_lt parsed (ten_years_before now) = true)).
Proof.
  split; [reflexivity|]. split; [reflexivity|].
  intros Hall.
  destruct (Hall afternoon_2024_06_15 early_2014_06_15 _ eq_refl) as [_ Hinv].
  discriminate Hinv. right. reflexivity.
Qed.

(** On a leap day the lower bound cannot be built: the year ten years
    back is never a leap year, so [datetime(year - 10, 2, 29)] raises. *)
Lemma check_timestamp_range_leap_day now parsed :
  valid_datetime now = true -> month now = 2 -> day now = 29 ->
  dt_gt parsed now = false ->
  raises (check_timestamp_range now parsed).
Proof.
  intros Hv Hm Hd Hgt. unfold check_timestamp_range. rewrite Hgt.
  unfold datetime_ymd. rewrite Hm, Hd.
  destruct ((1 <=? year now - 10) && (year now - 10 <=? 9999)) eqn:Hy;
    cbn [negb bind]; [|done].
  cbn [andb Z.leb Z.compare Pos.compare Pos.compare_cont negb].
  unfold valid_datetime, valid_date in Hv. rewrite Hm, Hd in Hv.
  assert (Hleap : is_leap (year now) = true).
  { unfold days_in_month in Hv. cbn in Hv. destruct (is_leap (year now)); [done|].
    repeat (apply andb_prop in Hv as [Hv ?]). done. }
  assert (Hnot : is_leap (year now - 10) = false).
  { unfold is_leap in *.
    assert (year now mod 4 = 0).
    { apply orb_prop in Hleap as [Hl|Hl].
      - apply andb_prop in Hl as [Hl _]. by apply Z.eqb_eq in Hl.
      - apply Z.eqb_eq in Hl.
        rewrite <- (Z.mod_mod_divide (year now) 400 4), Hl; [done|].
        by exists 100. }
    assert (Hmod4 : (year now - 10) mod 4 = 2).
    { replace (year now - 10) with (year now + (-3) * 4 + 2) by lia.
      rewrite <- Zplus_mod_idemp_l, Z_mod_plus_full, H. reflexivity. }
    assert (Hmod400 : (year now - 10) mod 400 <> 0).
    { intros H400.
      pose proof (Z.mod_mod_divide (year now - 10) 400 4) as Hdiv.
      rewrite H400 in Hdiv. cbn in Hdiv. rewrite Hmod4 in Hdiv.
      assert (0 = 2) by (apply Hdiv; by exists 100). lia. }
    rewrite Hmod4. cbn [Z.eqb andb orb]. by apply Z.eqb_neq. }
  unfold days_in_month. cbn [Z.eqb Pos.eqb]. by rewrite Hnot.
Qed.

(** C5, at the input where the code departs from it: on 2024-02-29 a
    timestamp of the month before, given as a text or as a datetime, makes
    [validate_timestamp] raise [ValueError] instead of returning a
    verdict. *)
Theorem validate_timestamp_raises_on_leap_day :
  validate_timestamp Strptime.strptime leap_day_2024 (PStr "2024-01-15 08:00:00")
    = Raise (ValueError "day is out of range for month") /\
  forall strptime,
    validate_timestamp strptime leap_day_2024 (PDatetime (mkDatetime 2024 1 15 8 0 0 0))
      = Raise (ValueError "day is out of range for month").
Proof. split; [reflexivity|]. intros strptime. reflexivity. Qed.

(** ** Batch validation *)

(** A turn of the loop only appends to the two lists it is given. *)
Lemma validate_row_acc strptime df now index row es ws :
  validate_row strptime df now index row (es, ws) =
  (es ++ fst (validate_row strptime df now index row ([], [])),
   ws ++ snd (validate_row strptime df now index row ([], []))).
Proof.
  unfold validate_row.
  destruct (entry_of_row df row) as [entry|e]; cbn [bind try_except fst snd];
    [|by rewrite app_nil_r].
  destruct (validate_entry_data strptime now entry) as [v|e];
    cbn [bind try_except fst snd]; [|by rewrite app_nil_r].
  destruct (valid v); cbn [negb try_except fst snd]; [|by rewrite app_nil_r].
  destruct (warnings v); cbn [try_except fst snd app]; by rewrite !app_nil_r.
Qed.

(** The loop validates every row on its own: what it returns is what each
    row alone contributes, in row order, whatever the other rows did. *)
Lemma validate_rows_outcomes strptime df clock rs : forall index es ws,
  validate_rows strptime df clock index rs (es, ws) =
  let outs := imap (fun k => row_outcome strptime df clock (index + k)) rs in
  (es ++ List.concat (map fst outs), ws ++ List.concat (map snd outs)).
Proof.
  induction rs as [|row rs IH]; intros index es ws.
  - cbn. by rewrite !app_nil_r.
  - cbn [validate_rows]. rewrite validate_row_acc, IH.
    cbn zeta. rewrite imap_cons.
    assert (Hshift :
      imap ((fun k => row_outcome strptime df clock (index + k)) ∘ S) rs =
      imap (fun k => row_outcome strptime df clock (S index + k)) rs).
    { apply imap_ext. intros k x _. unfold compose. by rewrite Nat.add_succ_r. }
    rewrite Hshift. cbn [map List.concat fst snd].
    by rewrite Nat.add_0_r, <- !app_assoc.
Qed.

Lemma validate_rows_all strptime df clock :
  validate_rows strptime df clock 0 (rows df) ([], []) =
  (all_errors strptime df clock, all_warnings strptime df clock).
Proof. by rewrite validate_rows_outcomes. Qed.

(** A row adds one error when its entry is invalid or its validation
    raises, and only warnings otherwise. *)
Lemma row_outcome_cases strptime df clock index row :
  let out := row_outcome strptime df clock index row in
  match bind (entry_of_row df row) (validate_entry_data strptime (clock index)) with
  | Ok v =>
      if valid v then
        fst out = [] /\
        snd out = map (fun w => row_label index +:+ w) (default [] (warnings v))
      else out = ([row_label index +:+ message v], [])
  | Raise e =>
      out = ([row_label index +:+ "Error validating data - " +:+ str_exn e], [])
  end.
Proof.
  unfold row_outcome, validate_row.
  destruct (entry_of_row df row) as [entry|e]; cbn [bind try_except]; [|done].
  destruct (validate_entry_data strptime (clock index) entry) as [v|e];
    cbn [bind try_except]; [|done].
  destruct (valid v); cbn [negb try_except]; [|done].
  by destruct (warnings v).
Qed.

Lemma required_columns_present df :
  Forall (fun c => c ∈ columns df) required_fields ->
  List.filter (fun col => negb (has_column df col)) required_fields = [] /\
  empty df = bool_decide (rows df = []).
Proof.
  intros Hall. split.
  - induction Hall as [|c cs Hc _ IH]; [done|]. cbn [List.filter].
    unfold has_column at 1. by rewrite bool_decide_eq_true_2.
  - unfold empty. inversion Hall as [|c cs Hc _]; subst.
    destruct (columns df); [by apply elem_of_nil in Hc|].
    by destruct (rows df).
Qed.

(** C6, as amended. On a table with every required column and at least
    one row, every row is validated on its own. With at least one row
    error the verdict is invalid and carries the first 10 error messages
    and the total error count, and no warning and no warning count; with no
    row error it is valid and carries the first 20 warning messages and the
    total warning count (when there is a warning). *)
Theorem validate_csv_data_report strptime (clock : nat -> datetime) (df : DataFrame) :
  Forall (fun c => c ∈ columns df) required_fields ->
  rows df <> [] ->
  exists v, validate_csv_data strptime clock df = Ok v /\
    let es := all_errors strptime df clock in
    let ws := all_warnings strptime df clock in
    match es, ws with
    | _ :: _, _ =>
        valid v = false /\
        errors v = Some (take 10 es) /\ total_errors v = Some (length es) /\
        warnings v = None /\ total_warnings v = None
    | [], _ :: _ =>
        valid v = true /\ errors v = None /\ total_errors v = None /\
        warnings v = Some (take 20 ws) /\ total_warnings v = Some (length ws)
    | [], [] =>
        valid v = true /\ errors v = None /\ total_errors v = None /\
        warnings v = None /\ total_warnings v = None
    end.
Proof.
  intros Hcols Hrows. unfold validate_csv_data.
  destruct (required_columns_present df Hcols) as [-> ->].
  rewrite bool_decide_eq_false_2 by done.
  rewrite validate_rows_all. cbn zeta.
  destruct (all_errors strptime df clock) as [|e es] eqn:Hes.
  - destruct (all_warnings strptime df clock) as [|w ws] eqn:Hws;
      eexists; (split; [reflexivity|]); done.
  - eexists; split; [reflexivity|]. done.
Qed.

Lemma validate_csv_data_report_witness :
  exists v, validate_csv_data Strptime.strptime clock_afternoon
              (table [john_8am; john_hr_999; john_9am]) = Ok v /\
            valid v = false /\ total_errors v = Some 1%nat /\
            errors v = Some ["Row 2: Heart rate too high (maximum 200 BPM)"].
Proof.
  destruct (validate_csv_data_report Strptime.strptime clock_afternoon
              (table [john_8am; john_hr_999; john_9am]))
    as (v & Hv & Hreport).
  - repeat constructor; vm_compute; set_solver.
  - discriminate.
  - exists v. split; [exact Hv|].
    vm_compute in Hreport. destruct Hreport as (H1 & H2 & H3 & _). auto.
Defined.

(** C6, as worded, fails on a failing batch. Row 1 of this table earns a
    warning and row 2 an error: the verdict reports the error and its count,
    but neither the warning that was collected nor a warning count. *)
Lemma validate_csv_data_drops_warnings :
  exists v, validate_csv_data Strptime.strptime clock_afternoon
              (table [john_lively; john_hr_999]) = Ok v /\
    all_warnings Strptime.strptime (table [john_lively; john_hr_999]) clock_afternoon
      = ["Row 1: High energy level with low heart rate - please verify readings"] /\
    valid v = false /\ total_errors v = Some 1%nat /\
    warnings v = None /\ total_warnings v = None.
Proof. eexists. split; [vm_compute; reflexivity|]. by vm_compute. Qed.

(** ** The store *)




Section StoreFacts.

Context `{CsvIO}.

Lemma has_column_true df c : has_column df c = true <-> c ∈ columns df.
Proof. unfold has_column. by rewrite bool_decide_eq_true. Qed.

Lemma backfill_keeps df col c : c ∈ columns df -> c ∈ columns (backfill df col).
Proof.
  intros Hc. unfold backfill. destruct (has_column df col); cbn; [done|].
  set_solver.
Qed.

Lemma backfill_adds df col : col ∈ columns (backfill df col).
Proof.
  unfold backfill. destruct (has_column df col) eqn:Hh; cbn.
  - by apply has_column_true.
  - set_solver.
Qed.

Lemma fold_backfill_columns cols : forall df c,
  c ∈ cols \/ c ∈ columns df -> c ∈ columns (fold_left backfill cols df).
Proof.
  induction cols as [|col cols IH]; intros df c Hc; cbn [fold_left].
  - destruct Hc as [Hc|Hc]; [by apply elem_of_nil in Hc|done].
  - apply IH. destruct Hc as [Hc|Hc].
    + apply elem_of_cons in Hc as [->|Hc]; [right; apply backfill_adds|by left].
    + right. by apply backfill_keeps.
Qed.

Lemma fold_backfill_id cols : forall df,
  Forall (fun c => c ∈ columns df) cols -> fold_left backfill cols df = df.
Proof.
  induction cols as [|col cols IH]; intros df Hall; [done|].
  inversion Hall as [|? ? Hc Hcs]; subst. cbn [fold_left].
  unfold backfill at 2. apply has_column_true in Hc. rewrite Hc. by apply IH.
Qed.

(** Every frame [load_data] returns has the seven columns of the store. *)
Lemma load_data_columns fs :
  Forall (fun c => c ∈ columns (load_data fs)) self_columns.
Proof.
  apply Forall_forall. intros c Hc. unfold load_data.
  destruct fs as [text|]; cbn [try_except]; [|done].
  destruct (0 <? getsize text)%nat; cbn [try_except]; [|done].
  destruct (read_csv text) as [df|e]; cbn [bind try_except]; [|done].
  apply fold_backfill_columns. by left.
Qed.

Lemma load_data_columns_nonempty fs : columns (load_data fs) <> [].
Proof.
  pose proof (load_data_columns fs) as Hall.
  inversion Hall as [|? ? Hc _]. intros Hnil. rewrite Hnil in Hc.
  by apply elem_of_nil in Hc.
Qed.

Lemma load_data_empty fs : empty (load_data fs) = true -> rows (load_data fs) = [].
Proof.
  pose proof (load_data_columns_nonempty fs). unfold empty.
  destruct (columns (load_data fs)); [done|]. by destruct (rows (load_data fs)).
Qed.

(** Loading a file that was written from a frame with the seven columns,
    and that the CSV layer reads back as written, gives that frame. *)
Lemma load_written df :
  round_trips df ->
  Forall (fun c => c ∈ columns df) self_columns ->
  load_data (Some (to_csv df)) = df.
Proof.
  intros [Hread Hsize] Hcols. unfold load_data.
  apply Nat.ltb_lt in Hsize. rewrite Hsize, Hread. cbn [bind try_except].
  by apply fold_backfill_id.
Qed.

Lemma columns_extended fs (df : DataFrame) :
  (forall c, c ∈ columns (load_data fs) -> c ∈ columns df) ->
  Forall (fun c => c ∈ columns df) self_columns.
Proof.
  intros Hsub. eapply Forall_impl; [apply load_data_columns|]. exact Hsub.
Qed.

Lemma load_appended entry_data fs :
  round_trips (appended entry_data fs) ->
  load_data (Some (to_csv (appended entry_data fs))) = appended entry_data fs.
Proof.
  intros Hrt. apply load_written; [done|].
  apply (columns_extended fs). intros c Hc. cbn. set_solver.
Qed.

(** [add_entry] on a record that has a person and a timestamp: rejected
    when a stored row has the same key, appended and written otherwise. *)
Lemma add_entry_keyed entry_data fs pid ts :
  entry_data !! "person_id" = Some pid ->
  entry_data !! "timestamp" = Some ts ->
  add_entry entry_data fs =
    if duplicate_mask_any (load_data fs) pid ts then (false, fs)
    else (true, Some (to_csv (appended entry_data fs))).
Proof.
  intros Hpid Hts. unfold add_entry, getitem. rewrite Hpid, Hts.
  destruct (empty (load_data fs)) eqn:He; cbn [negb bind try_except].
  - unfold duplicate_mask_any. by rewrite (load_data_empty _ He).
  - by destruct (duplicate_mask_any (load_data fs) pid ts).
Qed.









End StoreFacts.

(** ** The store on the file model *)

Lemma text_round_trips df : round_trips (H := text_csv) df.
Proof. split; [reflexivity|]. cbn. lia. Qed.







(** ** Further facts *)

(** The keys of the data model, strings and datetimes, are equal to
    themselves under the elementwise [==]. *)
Lemma py_eq_str s : py_eq (PStr s) (PStr s) = true.
Proof. cbn. by apply bool_decide_eq_true. Qed.

Lemma py_eq_datetime d : py_eq (PDatetime d) (PDatetime d) = true.
Proof.
  destruct d. cbn. by rewrite !Z.eqb_refl.
Qed.



(** ** The scenarios of the specification, run on the model *)

(** Boundary behaviour of the heart rate. *)
Example heart_rate_boundaries :
  validate_heart_rate (PInt 30) = Ok (plain true "Valid heart rate") /\
  validate_heart_rate (PInt 200) = Ok (plain true "Valid heart rate") /\
  validate_heart_rate (PInt 29) = Ok (plain false "Heart rate too low (minimum 30 BPM)") /\
  validate_heart_rate (PInt 201) = Ok (plain false "Heart rate too high (maximum 200 BPM)").
Proof. by vm_compute. Qed.

(** Scenario A, then scenario B: the same key again with another heart
    rate is refused and the stored row stays. *)
Example scenario_add_then_duplicate :
  fst (add_entry (H := text_csv) john_8am None) = true /\
  rows (load_data (snd (add_entry john_8am None))) = [john_8am] /\
  add_entry (<["heart_rate" := PInt 75]> john_8am) (snd (add_entry john_8am None))
    = (false, snd (add_entry john_8am None)).
Proof. repeat split; vm_compute; reflexivity. Qed.

(** Scenario C. *)
Example scenario_diastolic_above_systolic :
  validate_blood_pressure (PInt 120) (PInt 125)
    = Ok (plain false "Diastolic pressure must be lower than systolic pressure").
Proof. reflexivity. Qed.

(** Scenario D. *)
Example scenario_batch_with_one_bad_row :
  validate_csv_data Strptime.strptime clock_afternoon
                    (table [john_8am; john_hr_999; john_9am])
    = Ok (with_errors (plain false "Validation failed with 1 errors")
            ["Row 2: Heart rate too high (maximum 200 BPM)"] 1).
Proof. by vm_compute. Qed.

(** Scenario F. *)
Example scenario_high_energy_low_heart_rate :
  validate_health_metrics (PInt 55) (PInt 120) (PInt 80) (PInt 9)
    = Ok (with_warnings (plain true "All health metrics are valid")
            ["High energy level with low heart rate - please verify readings"]).
Proof. reflexivity. Qed.

(** * Further properties of the validators *)

Lemma float_le_fin p q : float_le (FFin p) (FFin q) = true <-> (p <= q)%Q.
Proof.
  cbv beta iota delta [float_le]. rewrite Qle_alt.
  destruct (p ?= q)%Q; split; intros; congruence.
Qed.

Lemma float_lt_fin p q : float_lt (FFin p) (FFin q) = true <-> (p < q)%Q.
Proof.
  cbv beta iota delta [float_lt]. rewrite Qlt_alt.
  destruct (p ?= q)%Q; split; intros; congruence.
Qed.

Lemma float_le_lt_trans a x b :
  float_le a x = true -> float_lt x b = true -> float_lt a b = true.
Proof.
  destruct a as [|[]|p], x as [|[]|q], b as [|[]|r]; try done.
  rewrite float_le_fin, !float_lt_fin. apply Qle_lt_trans.
Qed.

Lemma float_lt_trans a x b :
  float_lt a x = true -> float_lt x b = true -> float_lt a b = true.
Proof.
  destruct a as [|[]|p], x as [|[]|q], b as [|[]|r]; try done.
  rewrite !float_lt_fin. apply Qlt_trans.
Qed.

(** What passes a floor test and a ceiling test. *)
Lemma between_or_nan_tests lo hi x :
  float_lt x (of_int lo) = false /\ float_lt (of_int hi) x = false <->
  between_or_nan lo hi x.
Proof.
  unfold between_or_nan. split.
  - intros [Hlo Hhi]. destruct x as [|neg|q]; [by left|right..];
      split; by apply float_not_lt_le.
  - intros [->|[Hlo Hhi]]; [done|]. split; by apply float_le_not_lt.
Qed.

(** The two bands of the blood pressure exclude each other. *)
Lemma bands_exclusive x y : low_band x y && high_band x y = false.
Proof.
  unfold low_band, high_band.
  destruct (float_lt x (of_int 90)) eqn:Hx; [|done].
  destruct (float_lt y (of_int 60)) eqn:Hy; [|done]. cbn [andb].
  destruct (float_le (of_int 140) x) eqn:Hx'.
  { by pose proof (float_le_lt_trans _ _ _ Hx' Hx). }
  destruct (float_le (of_int 90) y) eqn:Hy'; [|done].
  by pose proof (float_le_lt_trans _ _ _ Hy' Hy).
Qed.

(** X1. [validate_person_id] never raises, and its verdict is valid
    exactly for a string that, once stripped of surrounding whitespace, has
    2 to 50 characters, all of them letters, digits, underscores or
    hyphens. *)
Theorem validate_person_id_valid_iff (v : pyval) :
  exists r, validate_person_id v = Ok r /\
    (valid r = true <-> exists s, v = PStr s /\ well_formed_id s).
Proof.
  destruct v as [| | | |s|];
    try (eexists; split; [reflexivity|]; split; [done|by intros (s & ? & _)]).
  cbn [validate_person_id truthy].
  destruct (String.length s =? 0)%nat eqn:E0; cbn [negb].
  { apply Nat.eqb_eq in E0. destruct s; [|done].
    eexists; split; [done|]. split; [done|].
    intros (s' & [= <-] & [Hlen _] & _). unfold len in Hlen. cbn in Hlen. lia. }
  destruct (len (strip s) <? 2) eqn:E1.
  { apply Z.ltb_lt in E1. eexists; split; [done|]. split; [done|].
    intros (s' & [= <-] & [Hlen _] & _). lia. }
  destruct (len (strip s) >? 50) eqn:E2.
  { rewrite Z.gtb_ltb in E2. apply Z.ltb_lt in E2.
    eexists; split; [done|]. split; [done|].
    intros (s' & [= <-] & [_ Hlen] & _). lia. }
  apply Z.ltb_ge in E1. rewrite Z.gtb_ltb in E2. apply Z.ltb_ge in E2.
  unfold match_id_regex.
  assert (Hne : (String.length (strip s) =? 0)%nat = false).
  { apply Nat.eqb_neq. unfold len in E1. lia. }
  rewrite Hne. cbn [negb andb].
  destruct (all_chars is_id_char (strip s)) eqn:E3; cbn [negb].
  - eexists; split; [done|]. split; [|done]. intros _. by exists s.
  - eexists; split; [done|]. split; [done|].
    intros (s' & [= <-] & _ & Hall). congruence.
Qed.

Lemma bounded_validator_valid_iff lo hi v (x : pyfloat) (r : verdict) msg_lo msg_hi msg :
  as_number v = Some x ->
  (low <- py_lt v (PInt lo) ;;
   if low then Ok (plain false msg_lo)
   else high <- py_gt v (PInt hi) ;;
        if high then Ok (plain false msg_hi) else Ok (plain true msg)) = Ok r ->
  (valid r = true <-> between_or_nan lo hi x).
Proof.
  intros Hx. compare_numbers. cbn [bind]. rewrite <- between_or_nan_tests.
  destruct (float_lt x (of_int lo)); cbn [bind].
  { intros [= <-]. split; [done|]. by intros [? _]. }
  destruct (float_lt (of_int hi) x); intros [= <-]; split; try done.
  by intros [_ ?].
Qed.

(** X2. [validate_heart_rate] and [validate_energy_level] never raise.
    They accept exactly the [int]s, [bool]s and [float]s that lie within
    30..200, respectively 1..10, and the float NaN; every value that is no
    number is rejected. *)
Theorem bounded_validators_valid_iff (v : pyval) :
  (exists r, validate_heart_rate v = Ok r /\
     (valid r = true <-> exists x, as_number v = Some x /\ between_or_nan 30 200 x)) /\
  (exists r, validate_energy_level v = Ok r /\
     (valid r = true <-> exists x, as_number v = Some x /\ between_or_nan 1 10 x)).
Proof.
  split.
  - destruct (validate_heart_rate_total v) as [r Hr]. exists r. split; [done|].
    unfold validate_heart_rate in Hr. destruct (is_number v) eqn:Hn; cbn [negb] in Hr.
    + destruct (is_number_Some _ Hn) as [x Hx].
      rewrite (bounded_validator_valid_iff _ _ _ _ _ _ _ _ Hx Hr). split; [eauto|].
      intros (x' & Hx' & Hb). congruence.
    + injection Hr as <-. split; [done|]. intros (x & Hx & _).
      by rewrite (is_number_as _ _ Hx) in Hn.
  - destruct (validate_energy_level_total v) as [r Hr]. exists r. split; [done|].
    unfold validate_energy_level in Hr. destruct (is_number v) eqn:Hn; cbn [negb] in Hr.
    + destruct (is_number_Some _ Hn) as [x Hx].
      rewrite (bounded_validator_valid_iff _ _ _ _ _ _ _ _ Hx Hr). split; [eauto|].
      intros (x' & Hx' & Hb). congruence.
    + injection Hr as <-. split; [done|]. intros (x & Hx & _).
      by rewrite (is_number_as _ _ Hx) in Hn.
Qed.

(** X3. A rejected blood pressure carries no warning. An accepted one
    carries the low-range warning exactly when systolic < 90 and
    diastolic < 60, the high-range warning exactly when systolic >= 140 or
    diastolic >= 90, and none otherwise; the two conditions never hold
    together, so the order of the two tests decides nothing. *)
Theorem validate_blood_pressure_warning (s d : pyval) (r : verdict) :
  validate_blood_pressure s d = Ok r ->
  if valid r then
    exists x y, as_number s = Some x /\ as_number d = Some y /\
      low_band x y && high_band x y = false /\
      warning r = (if low_band x y then Some low_warning
                   else if high_band x y then Some high_warning else None)
  else warning r = None.
Proof.
  unfold validate_blood_pressure.
  destruct (is_number s) eqn:Hs; cbn [negb orb]; [|by intros [= <-]].
  destruct (is_number d) eqn:Hd; cbn [negb orb]; [|by intros [= <-]].
  destruct (is_number_Some _ Hs) as [x Hx], (is_number_Some _ Hd) as [y Hy].
  unfold and_then, or_else. compare_numbers. cbn [bind].
  repeat (match goal with
          | |- context [if float_lt ?a ?b then Ok (plain false _) else _] =>
              destruct (float_lt a b); cbn [bind]; [by intros [= <-]|]
          | |- context [if float_le ?a ?b then Ok (plain false _) else _] =>
              destruct (float_le a b); cbn [bind]; [by intros [= <-]|]
          end).
  pose proof (bands_exclusive x y) as Hex. unfold low_band, high_band in *.
  destruct (float_lt x (of_int 90)) eqn:A, (float_lt y (of_int 60)) eqn:B,
    (float_le (of_int 140) x) eqn:C, (float_le (of_int 90) y) eqn:D;
    cbn [bind andb orb] in *; intros [= <-];
    cbn [valid with_warning plain warning]; exists x, y;
    rewrite A, B, C, D; by repeat split.
Qed.

Lemma validate_blood_pressure_warning_witness :
  exists r, validate_blood_pressure (PInt 150) (PInt 95) = Ok r /\
            warning r = Some high_warning.
Proof.
  eexists. split; [reflexivity|].
  pose proof (validate_blood_pressure_warning (PInt 150) (PInt 95) _ eq_refl) as Hw.
  cbn [valid with_warning plain] in Hw.
  destruct Hw as (x & y & [= <-] & [= <-] & _ & Hw). exact Hw.
Defined.

(** X4. [validate_notes] never raises; it accepts [None] and every
    string of at most 500 characters, and nothing else. *)
Theorem validate_notes_valid_iff (v : pyval) :
  exists r, validate_notes v = Ok r /\
    (valid r = true <-> v = PNone \/ exists s, v = PStr s /\ len s <= 500).
Proof.
  destruct v as [| | | |s|];
    try (eexists; split; [reflexivity|]; split;
         [done|by intros [?|(s & ? & _)]]).
  - eexists; split; [reflexivity|]. split; [by left|done].
  - cbn [validate_notes]. destruct (len s >? 500) eqn:E; rewrite Z.gtb_ltb in E.
    + apply Z.ltb_lt in E. eexists; split; [done|]. split; [done|].
      intros [?|(s' & [= <-] & ?)]; [done|lia].
    + apply Z.ltb_ge in E. eexists; split; [done|]. split; [|done].
      intros _. right. by exists s.
Qed.

(** The two cross-field warnings exclude each other: no heart rate is
    below 60 and above 100. *)
Lemma cross_warnings_exclusive x e :
  (float_le (of_int 8) e && float_lt x (of_int 60)) &&
  (float_le e (of_int 3) && float_lt (of_int 100) x) = false.
Proof.
  destruct (float_lt x (of_int 60)) eqn:Hlo; [|by rewrite andb_false_r].
  destruct (float_lt (of_int 100) x) eqn:Hhi; [|by rewrite !andb_false_r].
  by pose proof (float_lt_trans _ _ _ Hhi Hlo).
Qed.

Lemma metric_warnings_length w x e : (length (metric_warnings w x e) <= 2)%nat.
Proof.
  unfold metric_warnings. pose proof (cross_warnings_exclusive x e) as Hex.
  rewrite !length_app.
  destruct (float_le (of_int 8) e && float_lt x (of_int 60)),
    (float_le e (of_int 3) && float_lt (of_int 100) x), w; cbn in *; lia || done.
Qed.

(** X5. A valid verdict of [validate_health_metrics] lists, in this
    order, the warning of the blood pressure, the warning for an energy
    level of 8 or more with a heart rate below 60, and the warning for an
    energy level of 3 or less with a heart rate above 100. The key
    ['warnings'] is absent when none applies, and at most two warnings are
    ever returned, because the last two exclude each other. *)
Theorem validate_health_metrics_warnings (hr s d e : pyval) (v : verdict) :
  validate_health_metrics hr s d e = Ok v -> valid v = true ->
  exists vbp x en,
    validate_blood_pressure s d = Ok vbp /\
    as_number hr = Some x /\ as_number e = Some en /\
    warnings v = match metric_warnings (warning vbp) x en with
                 | [] => None
                 | ws => Some ws
                 end /\
    (length (metric_warnings (warning vbp) x en) <= 2)%nat.
Proof.
  unfold validate_health_metrics.
  destruct (validate_heart_rate_total hr) as [v1 H1]. rewrite H1. cbn [bind].
  destruct (valid v1) eqn:E1; cbn [negb]; [|intros [= <-]; congruence].
  destruct (validate_blood_pressure_total s d) as [v2 H2]. rewrite H2. cbn [bind].
  destruct (valid v2) eqn:E2; cbn [negb]; [|intros [= <-]; congruence].
  destruct (validate_energy_level_total e) as [v3 H3]. rewrite H3. cbn [bind].
  destruct (valid v3) eqn:E3; cbn [negb]; [|intros [= <-]; congruence].
  destruct (is_number_Some _ (validate_heart_rate_valid_number _ _ H1 E1)) as [x Hx].
  destruct (is_number_Some _ (validate_energy_level_valid_number _ _ H3 E3)) as [en He].
  unfold and_then. compare_numbers. cbn [bind].
  intros Hv _. exists v2, x, en. split; [done|]. split; [done|]. split; [done|].
  split; [|apply metric_warnings_length].
  unfold metric_warnings.
  destruct (float_le (of_int 8) en); cbn [bind andb] in *;
    destruct (float_le en (of_int 3)); cbn [bind andb] in *;
    repeat match goal with
    | H : context [float_lt ?a ?b] |- _ => destruct (float_lt a b); cbn [bind] in H
    end;
    destruct (warning v2); cbn [app option_list] in *; by injection Hv as <-.
Qed.

Lemma validate_health_metrics_warnings_witness :
  exists v, validate_health_metrics (PInt 55) (PInt 150) (PInt 95) (PInt 9) = Ok v /\
            warnings v = Some [high_warning; lively_warning].
Proof.
  eexists. split; [reflexivity|].
  destruct (validate_health_metrics_warnings (PInt 55) (PInt 150) (PInt 95) (PInt 9)
              _ eq_refl eq_refl) as (vbp & x & en & [= <-] & [= <-] & [= <-] & Hw & _).
  exact Hw.
Defined.


(** * Further properties of the record validator *)

Lemma first_missing_Some fields entry_data field :
  first_missing fields entry_data = Some field ->
  exists before after,
    fields = before ++ field :: after /\
    entry_data !! field = None /\
    Forall (fun f => is_Some (entry_data !! f)) before.
Proof.
  induction fields as [|f fields IH]; [done|]. cbn [first_missing].
  destruct (entry_data !! f) eqn:Hf.
  - intros (before & after & -> & Hnone & Hall)%IH.
    exists (f :: before), after. split; [done|]. split; [done|].
    constructor; [by rewrite Hf|done].
  - intros [= <-]. by exists [], fields.
Qed.

Lemma first_missing_None fields entry_data :
  first_missing fields entry_data = None <->
  Forall (fun f => is_Some (entry_data !! f)) fields.
Proof.
  induction fields as [|f fields IH]; cbn [first_missing]; [by split|].
  rewrite Forall_cons. destruct (entry_data !! f) eqn:Hf.
  - rewrite IH. split; [by split|by intros [_ ?]].
  - split; [done|]. by intros [[? ?] _].
Qed.

(** X6. When a required field is absent, [validate_entry_data] returns
    an invalid verdict that names the first absent field in the order
    person_id, timestamp, heart_rate, systolic_bp, diastolic_bp,
    energy_level. No field is validated in that case, so nothing is raised
    whatever the clock reads. *)
Theorem validate_entry_data_missing_field strptime (now : datetime)
    (entry_data : dict) (field : string) :
  field ∈ required_fields -> entry_data !! field = None ->
  exists missing before after,
    validate_entry_data strptime now entry_data
      = Ok (plain false ("Missing required field: " +:+ missing)) /\
    required_fields = before ++ missing :: after /\
    entry_data !! missing = None /\
    Forall (fun f => is_Some (entry_data !! f)) before.
Proof.
  intros Hin Hnone. unfold validate_entry_data.
  destruct (first_missing required_fields entry_data) as [missing|] eqn:Hm.
  - destruct (first_missing_Some _ _ _ Hm) as (before & after & ? & ? & ?).
    by exists missing, before, after.
  - apply first_missing_None in Hm. rewrite Forall_forall in Hm.
    destruct (Hm _ Hin) as [? Hsome]. congruence.
Qed.

Lemma validate_entry_data_missing_field_witness :
  validate_entry_data Strptime.strptime leap_day_2024
                      (delete "systolic_bp" (delete "timestamp" john_8am))
    = Ok (plain false "Missing required field: timestamp").
Proof.
  destruct (validate_entry_data_missing_field Strptime.strptime leap_day_2024
              (delete "systolic_bp" (delete "timestamp" john_8am)) "systolic_bp")
    as (missing & before & after & Hv & _).
  - vm_compute. set_solver.
  - reflexivity.
  - assert (missing = "timestamp") as ->
      by (vm_compute in Hv; by injection Hv).
    exact Hv.
Defined.









(** * Further properties of the batch validator *)

Lemma row_outcome_errors strptime df clock index row :
  (length (fst (row_outcome strptime df clock index row)) <= 1)%nat /\
  (fst (row_outcome strptime df clock index row) = [] <->
   exists r, bind (entry_of_row df row) (validate_entry_data strptime (clock index)) = Ok r
             /\ valid r = true).
Proof.
  pose proof (row_outcome_cases strptime df clock index row) as Hc. cbn zeta in Hc.
  destruct (bind (entry_of_row df row) (validate_entry_data strptime (clock index)))
    as [r|e].
  - destruct (valid r) eqn:Hr.
    + destruct Hc as [-> _]. split; [cbn; lia|]. split; [by exists r|done].
    + rewrite Hc. split; [cbn; lia|]. split; [done|].
      intros (r' & [= <-] & ?). congruence.
  - rewrite Hc. split; [cbn; lia|]. split; [done|]. by intros (r' & ? & _).
Qed.

Lemma all_errors_nil strptime df clock :
  all_errors strptime df clock = [] <->
  forall i row, rows df !! i = Some row ->
    fst (row_outcome strptime df clock i row) = [].
Proof.
  unfold all_errors, all_outcomes. rewrite concat_nil_Forall, List.Forall_forall.
  split.
  - intros Hall i row Hrow. apply Hall. apply list_elem_of_In, list_elem_of_fmap.
    exists (row_outcome strptime df clock i row). split; [done|].
    apply list_elem_of_lookup. exists i. by rewrite list_lookup_imap, Hrow.
  - intros Hall es [out [-> Hout]]%list_elem_of_In%list_elem_of_fmap.
    apply list_elem_of_lookup in Hout as [i Hi].
    rewrite list_lookup_imap in Hi.
    destruct (rows df !! i) as [row|] eqn:Hrow; [|done].
    injection Hi as <-. by apply Hall.
Qed.

Lemma concat_imap_length {A B C} (f : nat -> A -> list B * C) (l : list A) :
  (forall i x, length (fst (f i x)) <= 1)%nat ->
  (length (List.concat (map fst (imap f l))) <= length l)%nat.
Proof.
  revert f. induction l as [|x l IH]; intros f Hf; [done|].
  rewrite imap_cons. cbn [map List.concat length]. rewrite length_app.
  pose proof (Hf 0%nat x).
  assert (length (List.concat (map fst (imap (f ∘ S) l))) <= length l)%nat
    by (apply IH; intros; apply Hf).
  lia.
Qed.

Lemma all_errors_length strptime df clock :
  (length (all_errors strptime df clock) <= nrows df)%nat.
Proof.
  apply concat_imap_length. intros i row. apply row_outcome_errors.
Qed.

(** X9. On a table with every required column and at least one row, the
    verdict of [validate_csv_data] is valid exactly when every row, read at
    its own clock reading, gets a valid verdict from [validate_entry_data];
    a row whose validation raises makes the batch invalid instead of
    raising. *)
Theorem validate_csv_data_valid_iff strptime (clock : nat -> datetime) (df : DataFrame) :
  Forall (fun c => c ∈ columns df) required_fields ->
  rows df <> [] ->
  exists v, validate_csv_data strptime clock df = Ok v /\
    (valid v = true <->
     forall i row, rows df !! i = Some row ->
       exists r, bind (entry_of_row df row) (validate_entry_data strptime (clock i)) = Ok r
                 /\ valid r = true).
Proof.
  intros Hcols Hrows. unfold validate_csv_data.
  destruct (required_columns_present df Hcols) as [-> ->].
  rewrite bool_decide_eq_false_2 by done.
  rewrite validate_rows_all.
  assert (Hnil := all_errors_nil strptime df clock).
  destruct (all_errors strptime df clock) as [|e es].
  - assert (Hok : forall i row, rows df !! i = Some row ->
       exists r, bind (entry_of_row df row) (validate_entry_data strptime (clock i)) = Ok r
                 /\ valid r = true).
    { intros i row Hrow. apply row_outcome_errors. by apply Hnil. }
    destruct (all_warnings strptime df clock); eexists; (split; [reflexivity|]); done.
  - eexists. split; [reflexivity|]. split; [done|]. intros Hok.
    assert ([] = e :: es) as Habs; [|done]. symmetry. apply Hnil.
    intros i row Hrow. apply row_outcome_errors. by apply Hok.
Qed.

Lemma validate_csv_data_valid_iff_witness :
  exists v, validate_csv_data Strptime.strptime (fun _ => leap_day_2024)
              (table [john_8am; mary_8am]) = Ok v /\
            valid v = false /\ total_errors v = Some 2%nat.
Proof.
  destruct (validate_csv_data_valid_iff Strptime.strptime (fun _ => leap_day_2024)
              (table [john_8am; mary_8am])) as (v & Hv & _).
  - repeat constructor; vm_compute; set_solver.
  - discriminate.
  - exists v. split; [exact Hv|]. vm_compute in Hv. by injection Hv as <-.
Defined.

(** X10. Whatever the table, a verdict of [validate_csv_data] never
    lists more than 10 errors or more than 20 warnings: the lists are the
    first 10, respectively 20, of the totals it reports, and the total of
    errors is at least 1 and at most the number of rows. *)
Theorem validate_csv_data_caps strptime (clock : nat -> datetime) (df : DataFrame)
    (v : verdict) :
  validate_csv_data strptime clock df = Ok v ->
  match errors v, total_errors v with
  | Some es, Some n =>
      length es = Nat.min 10 n /\ (1 <= n <= nrows df)%nat /\ valid v = false
  | None, None => True
  | _, _ => False
  end /\
  match warnings v, total_warnings v with
  | Some ws, Some n => length ws = Nat.min 20 n /\ (1 <= n)%nat /\ valid v = true
  | None, None => True
  | _, _ => False
  end.
Proof.
  unfold validate_csv_data.
  destruct (List.filter _ required_fields); [|by intros [= <-]].
  destruct (empty df); [by intros [= <-]|].
  rewrite validate_rows_all.
  pose proof (all_errors_length strptime df clock) as Hlen.
  destruct (all_errors strptime df clock) as [|e es].
  - destruct (all_warnings strptime df clock) as [|w ws]; intros [= <-]; [done|].
    cbn [errors total_errors warnings total_warnings valid
         with_total_warnings with_warnings plain].
    repeat split; cbn [length] in *; rewrite ?length_take; lia.
  - intros [= <-].
    cbn [errors total_errors warnings total_warnings valid with_errors plain].
    repeat split; cbn [length] in *; rewrite ?length_take; lia.
Qed.

Lemma validate_csv_data_caps_witness :
  exists v es n,
    validate_csv_data Strptime.strptime clock_afternoon
      (table (replicate 12 john_hr_999)) = Ok v /\
    errors v = Some es /\ total_errors v = Some n /\
    n = 12%nat /\ length es = 10%nat.
Proof.
  eexists _, _, _. split; [vm_compute; reflexivity|].
  split; [reflexivity|]. split; [reflexivity|]. split; [reflexivity|].
  pose proof (validate_csv_data_caps Strptime.strptime clock_afternoon
                (table (replicate 12 john_hr_999)) _ eq_refl) as [He _].
  cbn [errors total_errors] in He. exact (proj1 He).
Defined.

(** X11. [validate_csv_data] looks at no row of a table that lacks a
    required column or has no row: it returns the invalid verdict that
    lists the missing required columns in their fixed order, or, when all
    are present and the table is empty, the verdict 'No data found in
    CSV'. A missing column is reported before emptiness. *)
Theorem validate_csv_data_rejects_shape strptime (clock : nat -> datetime)
    (df : DataFrame) (v : verdict) :
  validate_csv_data strptime clock df = Ok v ->
  let missing := List.filter (fun c => negb (bool_decide (c ∈ columns df))) required_fields in
  (missing <> [] ->
   v = plain false ("Missing required columns: " +:+ repr_str_list missing)) /\
  (missing = [] -> rows df = [] -> v = plain false "No data found in CSV") /\
  (valid v = true -> missing = [] /\ rows df <> []).
Proof.
  unfold validate_csv_data, has_column. cbn zeta.
  destruct (List.filter _ required_fields) as [|c cs] eqn:Hmiss.
  - destruct (empty df) eqn:Hempty.
    + intros [= <-]. split; [done|]. split; [done|]. done.
    + intros Hv. split; [done|].
      assert (rows df <> []) as Hrows.
      { intros Hnil. unfold empty in Hempty. rewrite Hnil in Hempty.
        by destruct (columns df). }
      split; [done|]. by intros _.
  - intros [= <-]. split; [done|]. split; [done|]. done.
Qed.

Lemma validate_csv_data_rejects_shape_witness :
  exists v, validate_csv_data Strptime.strptime clock_afternoon
              (mkFrame ["person_id"; "heart_rate"; "notes"] []) = Ok v /\
    v = plain false
      "Missing required columns: ['timestamp', 'systolic_bp', 'diastolic_bp', 'energy_level']".
Proof.
  eexists. split; [reflexivity|].
  apply (proj1 (validate_csv_data_rejects_shape Strptime.strptime clock_afternoon
                  (mkFrame ["person_id"; "heart_rate"; "notes"] []) _ eq_refl)).
  vm_compute. discriminate.
Defined.

(** * sanitize_input *)

Lemma occurs_remove_char c s : occurs c (remove_char c s) = false.
Proof.
  induction s as [|a s IH]; [done|]. cbn [remove_char].
  destruct (Ascii.eqb a c) eqn:E; [done|]. cbn [occurs]. by rewrite E.
Qed.

Lemma remove_char_absent c s : occurs c s = false -> remove_char c s = s.
Proof.
  induction s as [|a s IH]; [done|]. cbn [occurs remove_char].
  intros [-> Hs]%orb_false_elim. by rewrite IH.
Qed.

Lemma occurs_substring c m : forall s,
  occurs c s = false -> occurs c (substring 0 m s) = false.
Proof.
  induction m as [|m IH]; intros [|a s]; try done.
  cbn [occurs substring]. intros [-> Hs]%orb_false_elim. by apply IH.
Qed.

Lemma length_substring m : forall s,
  (String.length (substring 0 m s) <= m)%nat.
Proof.
  induction m as [|m IH]; intros [|a s]; cbn [substring String.length]; try lia.
  specialize (IH s). lia.
Qed.

(** X12. On a string, [sanitize_input] returns a text of at most 1000
    characters without any NUL character; a string that has no NUL, no
    surrounding whitespace and at most 1000 characters is returned as it
    is. A value that is no string is only converted with [str]. *)
Theorem sanitize_input_clean str_of (s : string) :
  let out := sanitize_input str_of (PStr s) in
  len out <= 1000 /\
  occurs Ascii.zero out = false /\
  (occurs Ascii.zero s = false -> strip s = s -> len s <= 1000 -> out = s) /\
  (forall v, is_str v = false -> sanitize_input str_of v = str_of v).
Proof.
  cbn zeta. cbn [sanitize_input].
  set (t := remove_char Ascii.zero (strip s)).
  assert (Ht : occurs Ascii.zero t = false) by apply occurs_remove_char.
  split; [|split; [|split]].
  - destruct (len t >? 1000) eqn:E; rewrite Z.gtb_ltb in E.
    + pose proof (length_substring 1000 t). unfold len. lia.
    + apply Z.ltb_ge in E. lia.
  - destruct (len t >? 1000); [by apply occurs_substring|done].
  - intros Hnul Hstrip Hlen. subst t. rewrite Hstrip, (remove_char_absent _ _ Hnul).
    destruct (len s >? 1000) eqn:E; [|done].
    rewrite Z.gtb_ltb in E. apply Z.ltb_lt in E. lia.
  - by intros [].
Qed.

(** * Further properties of the store *)

Lemma py_eq_sym a b : py_eq a b = py_eq b a.
Proof.
  assert (Hfloat : forall x y, float_eq x y = float_eq y x).
  { intros [|[]|p] [|[]|q]; try done. cbn.
    destruct (Qeq_bool p q) eqn:E.
    - apply Qeq_bool_iff in E. symmetry. apply Qeq_bool_iff. by symmetry.
    - destruct (Qeq_bool q p) eqn:E'; [|done].
      apply Qeq_bool_iff in E'. symmetry in E'. apply Qeq_bool_iff in E'. congruence. }
  assert (Hdt : forall d e, dt_eqb d e = dt_eqb e d).
  { intros [] []. unfold dt_eqb. cbn.
    by rewrite !(Z.eqb_sym year0), !(Z.eqb_sym month0), !(Z.eqb_sym day0),
       !(Z.eqb_sym hour0), !(Z.eqb_sym minute0), !(Z.eqb_sym second0),
       !(Z.eqb_sym microsecond0). }
  destruct a, b; cbn [py_eq as_number]; try done; try apply Hfloat; try apply Hdt.
  apply bool_decide_ext. split; congruence.
Qed.

Lemma lookup_map {A B} (f : A -> B) (l : list A) (i : nat) :
  map f l !! i = f <$> l !! i.
Proof.
  revert i. induction l as [|x l IH]; intros [|i]; cbn; try done.
Qed.

Section MoreStoreFacts.

Context `{CsvIO}.

(** X13. [load_data] returns a frame with the seven columns of the store
    for every state of the file, and the empty frame with exactly these
    columns when the file is absent, has size zero, or cannot be read. *)
Theorem load_data_defaults (fs : file) :
  Forall (fun c => c ∈ columns (load_data fs)) self_columns /\
  match fs with
  | None => load_data fs = empty_frame
  | Some text =>
      (getsize text = 0%nat -> load_data fs = empty_frame) /\
      (forall e, read_csv text = Raise e -> load_data fs = empty_frame)
  end.
Proof.
  split; [apply load_data_columns|]. destruct fs as [text|]; [|done]. split.
  - intros Hz. unfold load_data. by rewrite Hz.
  - intros e He. unfold load_data. rewrite He. by destruct (0 <? getsize text)%nat.
Qed.

Lemma fold_backfill_rows cols : forall df,
  let out := fold_left backfill cols df in
  nrows out = nrows df /\
  (forall c, c ∈ columns out <-> c ∈ columns df \/ c ∈ cols) /\
  forall i r, rows df !! i = Some r ->
    exists r', rows out !! i = Some r' /\
      forall c, r' !! c =
        if bool_decide (c ∈ cols /\ c ∉ columns df) then Some (fill_value c)
        else r !! c.
Proof.
  induction cols as [|col cols IH]; intros df; cbn zeta; cbn [fold_left].
  { split; [done|]. split; [set_solver|]. intros i r Hr. exists r. split; [done|].
    intros c. rewrite bool_decide_eq_false_2; [done|]. set_solver. }
  destruct (IH (backfill df col)) as (Hn & Hc & Hr). cbn zeta in *.
  unfold backfill in *. destruct (has_column df col) eqn:Hcol; cbn [negb] in *.
  - apply has_column_true in Hcol. split; [done|]. split.
    { intros c. rewrite Hc. set_solver. }
    intros i r Hi. destruct (Hr i r Hi) as (r' & Hi' & Hcell). exists r'.
    split; [done|]. intros c. rewrite Hcell.
    by rewrite (bool_decide_ext (c ∈ cols /\ c ∉ columns df)
                                (c ∈ col :: cols /\ c ∉ columns df)) by set_solver.
  - assert (Hnot : col ∉ columns df).
    { intros Hin. apply has_column_true in Hin. congruence. }
    split.
    { rewrite Hn. unfold nrows, add_column. cbn. by rewrite length_map. }
    split.
    { intros c. rewrite Hc. unfold add_column. cbn. set_solver. }
    intros i r Hi.
    destruct (Hr i (<[col := fill_value col]> r)) as (r' & Hi' & Hcell).
    { unfold add_column. cbn [rows]. by rewrite lookup_map, Hi. }
    exists r'. split; [done|]. intros c. rewrite Hcell.
    unfold add_column. cbn [columns].
    destruct (decide (c = col)) as [->|Hne].
    + rewrite bool_decide_eq_false_2 by set_solver.
      rewrite bool_decide_eq_true_2 by set_solver. by rewrite lookup_insert_eq.
    + rewrite lookup_insert_ne by done.
      by rewrite (bool_decide_ext (c ∈ cols /\ c ∉ columns df ++ [col])
                                  (c ∈ col :: cols /\ c ∉ columns df)) by set_solver.
Qed.

(** X14. From a readable file [load_data] returns as many rows as the
    table it reads. A column is in the result exactly when it is in the
    table or is one of the seven columns of the store; in every row each of
    the seven columns that the table lacks is filled with 0, or with the
    empty string for [notes], and every other cell is as read. *)
Theorem load_data_backfills (text : Content) (df : DataFrame) :
  (0 < getsize text)%nat -> read_csv text = Ok df ->
  let out := load_data (Some text) in
  nrows out = nrows df /\
  (forall c, c ∈ columns out <-> c ∈ columns df \/ c ∈ self_columns) /\
  forall i r, rows df !! i = Some r ->
    exists r', rows out !! i = Some r' /\
      forall c, r' !! c =
        if bool_decide (c ∈ self_columns /\ c ∉ columns df) then Some (fill_value c)
        else r !! c.
Proof.
  intros Hsize Hread. cbn zeta. unfold load_data.
  apply Nat.ltb_lt in Hsize. rewrite Hsize, Hread. cbn [bind try_except].
  apply fold_backfill_rows.
Qed.

Lemma without_row_columns index fs :
  Forall (fun c => c ∈ columns (without_row index fs)) self_columns.
Proof. apply load_data_columns. Qed.

(** X15. [delete_entry] refuses a position below 0 or not below the
    number of rows: it returns false and leaves the file as it is. For a
    position in range it returns true and, when the CSV layer reads back
    the table it wrote, the dataset is the former one without that row: the
    rows before it keep their position, the rows after it move up by one,
    the columns are unchanged. *)
Theorem delete_entry_frame (index : Z) (fs : file) :
  round_trips (without_row (Z.to_nat index) fs) ->
  let before := load_data fs in
  let after := load_data (snd (delete_entry index fs)) in
  if (0 <=? index) && (index <? Z.of_nat (nrows before)) then
    fst (delete_entry index fs) = true /\
    columns after = columns before /\
    rows after = delete (Z.to_nat index) (rows before) /\
    S (nrows after) = nrows before /\
    (forall j, (j < Z.to_nat index)%nat -> rows after !! j = rows before !! j) /\
    (forall j, (Z.to_nat index <= j)%nat -> rows after !! j = rows before !! S j)
  else delete_entry index fs = (false, fs).
Proof.
  intros Hrt. cbn zeta. unfold delete_entry.
  destruct (0 <=? index) eqn:Hlo; cbn [andb].
  2:{ apply Z.leb_gt in Hlo. apply Z.ltb_lt in Hlo. by rewrite Hlo. }
  apply Z.leb_le in Hlo.
  replace (index <? 0) with false by (symmetry; apply Z.ltb_ge; lia).
  rewrite Z.geb_leb. cbn [orb].
  destruct (index <? Z.of_nat (nrows (load_data fs))) eqn:Hhi.
  - apply Z.ltb_lt in Hhi.
    replace (Z.of_nat (nrows (load_data fs)) <=? index) with false
      by (symmetry; apply Z.leb_gt; lia).
    cbn [fst snd]. fold (without_row (Z.to_nat index) fs).
    rewrite (load_written _ Hrt) by apply without_row_columns.
    unfold without_row, nrows in *. cbn [columns rows].
    split; [done|]. split; [done|]. split; [done|]. split.
    { rewrite length_delete; [lia|]. apply lookup_lt_is_Some. lia. }
    split.
    + intros j Hj. by apply list_lookup_delete_lt.
    + intros j Hj. by apply list_lookup_delete_ge.
  - apply Z.ltb_ge in Hhi.
    by replace (Z.of_nat (nrows (load_data fs)) <=? index) with true
      by (symmetry; apply Z.leb_le; lia).
Qed.

(** X16. [update_entry] refuses a position below 0 or not below the
    number of rows, whatever the mapping: it returns false and leaves the
    file as it is. In particular it refuses every position on a store
    without rows. *)
Theorem update_entry_out_of_range (index : Z) (updated_data : dict) (fs : file) :
  index < 0 \/ Z.of_nat (nrows (load_data fs)) <= index ->
  update_entry index updated_data fs = (false, fs).
Proof.
  intros Hout. unfold update_entry.
  destruct (index <? 0) eqn:Hlo; [done|]. apply Z.ltb_ge in Hlo.
  rewrite Z.geb_leb.
  by replace (Z.of_nat (nrows (load_data fs)) <=? index) with true
    by (symmetry; apply Z.leb_le; lia).
Qed.

(** X17. [clear_all_data] returns true whatever the file held, and when
    the CSV layer reads back the empty table, the store then loads as the
    empty frame with the seven columns; any dictionary is accepted by the
    next [add_entry]. *)
Theorem clear_all_data_empties (fs : file) (entry_data : dict) :
  round_trips empty_frame ->
  fst (clear_all_data fs) = true /\
  load_data (snd (clear_all_data fs)) = empty_frame /\
  fst (add_entry entry_data (snd (clear_all_data fs))) = true.
Proof.
  intros Hrt. split; [done|]. cbn [clear_all_data snd].
  assert (Hload : load_data (Some (to_csv empty_frame)) = empty_frame).
  { apply load_written; [done|]. apply Forall_forall. by intros c Hc. }
  split; [done|]. unfold add_entry. by rewrite Hload.
Qed.

Lemma add_entry_unkeyed (entry_data : dict) (fs : file) :
  entry_data !! "person_id" = None \/ entry_data !! "timestamp" = None ->
  add_entry entry_data fs =
    if bool_decide (rows (load_data fs) = []) then
      (true, Some (to_csv (appended entry_data fs)))
    else (false, fs).
Proof.
  intros Hkey. unfold add_entry.
  assert (Hempty : empty (load_data fs) = bool_decide (rows (load_data fs) = [])).
  { pose proof (load_data_columns_nonempty fs). unfold empty.
    destruct (columns (load_data fs)); [done|]. by destruct (rows (load_data fs)). }
  rewrite Hempty. destruct (rows (load_data fs)) eqn:Hrows; cbn [bool_decide negb].
  - by rewrite bool_decide_eq_true_2.
  - rewrite bool_decide_eq_false_2 by done. cbn [negb]. unfold getitem.
    destruct Hkey as [-> | Hts]; [done|].
    destruct (entry_data !! "person_id"); by rewrite ?Hts.
Qed.

(** X18. A dictionary without a [person_id] or without a [timestamp] is
    accepted by [add_entry] when the store has no row (the duplicate check
    is skipped), and refused, with the file left as it is, when the store
    has a row (the lookup of the absent key fails inside the [try]). *)
Theorem add_entry_without_key (entry_data : dict) (fs : file) :
  entry_data !! "person_id" = None \/ entry_data !! "timestamp" = None ->
  (rows (load_data fs) = [] ->
   add_entry entry_data fs = (true, Some (to_csv (appended entry_data fs)))) /\
  (rows (load_data fs) <> [] -> add_entry entry_data fs = (false, fs)).
Proof.
  intros Hkey. rewrite (add_entry_unkeyed _ _ Hkey). split; intros Hrows.
  - by rewrite bool_decide_eq_true_2.
  - by rewrite bool_decide_eq_false_2.
Qed.

Lemma unique_keys_append (df : DataFrame) (cols : list string) (entry_data : dict) :
  unique_keys df ->
  (forall r, r ∈ rows df ->
     same_key (cell entry_data "person_id") (cell entry_data "timestamp") r = false) ->
  unique_keys (mkFrame cols (rows df ++ [entry_data])).
Proof.
  intros Hu Hnew i j ri rj. cbn [rows].
  rewrite !lookup_app_Some. intros [Hi|[Hi Hi']] [Hj|[Hj Hj']] Hne.
  - by apply (Hu i j).
  - apply list_lookup_singleton_Some in Hj' as [_ <-].
    unfold same_key. rewrite (py_eq_sym (cell entry_data "person_id")),
      (py_eq_sym (cell entry_data "timestamp")).
    apply Hnew. by eapply list_elem_of_lookup_2.
  - apply list_lookup_singleton_Some in Hi' as [_ <-].
    apply Hnew. by eapply list_elem_of_lookup_2.
  - apply list_lookup_singleton_Some in Hi' as [Hi' _].
    apply list_lookup_singleton_Some in Hj' as [Hj' _]. lia.
Qed.

(** X19. [add_entry] keeps the key of the store unique: when no two rows
    of the loaded dataset share their person and timestamp, and the CSV
    layer reads back the table that is written, the same holds of the
    dataset after the call, whether the entry was accepted or refused. *)
Theorem add_entry_keeps_unique_keys (entry_data : dict) (fs : file) :
  unique_keys (load_data fs) ->
  round_trips (appended entry_data fs) ->
  unique_keys (load_data (snd (add_entry entry_data fs))).
Proof.
  intros Hu Hrt.
  destruct (entry_data !! "person_id") as [pid|] eqn:Hpid;
    [destruct (entry_data !! "timestamp") as [ts|] eqn:Hts|].
  - rewrite (add_entry_keyed _ _ _ _ Hpid Hts).
    destruct (duplicate_mask_any (load_data fs) pid ts) eqn:Hdup; cbn [snd]; [done|].
    rewrite (load_appended _ _ Hrt). apply unique_keys_append; [done|].
    intros r Hr. unfold cell at 1 2. rewrite Hpid, Hts. cbn [default].
    unfold duplicate_mask_any in Hdup.
    destruct (same_key pid ts r) eqn:E; [|done].
    assert (existsb (same_key pid ts) (rows (load_data fs)) = true); [|congruence].
    apply existsb_exists. exists r. split; [by apply list_elem_of_In|done].
  - rewrite add_entry_unkeyed by auto. case_bool_decide as Hrows; cbn [snd]; [|done].
    rewrite (load_appended _ _ Hrt). apply unique_keys_append; [done|].
    intros r Hr. rewrite Hrows in Hr. by apply elem_of_nil in Hr.
  - rewrite add_entry_unkeyed by auto. case_bool_decide as Hrows; cbn [snd]; [|done].
    rewrite (load_appended _ _ Hrt). apply unique_keys_append; [done|].
    intros r Hr. rewrite Hrows in Hr. by apply elem_of_nil in Hr.
Qed.

Lemma filter_all_false {A} (f : A -> bool) (l : list A) :
  (forall x, In x l -> f x = false) -> List.filter f l = [].
Proof.
  induction l as [|x l IH]; [done|]. intros Hall. cbn [List.filter].
  rewrite (Hall x) by (by left). apply IH. intros y Hy. apply Hall. by right.
Qed.

Lemma filter_idem {A} (f : A -> bool) (l : list A) :
  List.filter f (List.filter f l) = List.filter f l.
Proof.
  induction l as [|x l IH]; [done|]. cbn [List.filter].
  destruct (f x) eqn:E; [|done]. cbn [List.filter]. by rewrite E, IH.
Qed.

Lemma other_persons_idem p df : other_persons p (other_persons p df) = other_persons p df.
Proof. unfold other_persons. cbn [columns rows]. by rewrite filter_idem. Qed.

Lemma other_persons_columns p fs :
  Forall (fun c => c ∈ columns (other_persons p (load_data fs))) self_columns.
Proof. apply load_data_columns. Qed.

(** X20. After [delete_person_data] for a person, when the CSV layer
    reads back the table that was written: deleting the same person again
    changes nothing, and [add_entry] accepts every record of that person,
    whatever its timestamp. *)
Theorem delete_person_data_then_add (person_id ts : pyval) (entry_data : dict)
    (fs : file) :
  entry_data !! "person_id" = Some person_id ->
  entry_data !! "timestamp" = Some ts ->
  round_trips (other_persons person_id (load_data fs)) ->
  let deleted := snd (delete_person_data person_id fs) in
  load_data (snd (delete_person_data person_id deleted)) = load_data deleted /\
  fst (add_entry entry_data deleted) = true.
Proof.
  intros Hpid Hts Hrt. cbn zeta. unfold delete_person_data. cbn [snd].
  rewrite (load_written _ Hrt) by apply other_persons_columns.
  rewrite other_persons_idem.
  rewrite (load_written _ Hrt) by apply other_persons_columns.
  split; [done|].
  rewrite (add_entry_keyed _ _ _ _ Hpid Hts).
  rewrite (load_written _ Hrt) by apply other_persons_columns.
  assert (Hnone : duplicate_mask_any (other_persons person_id (load_data fs))
                    person_id ts = false); [|by rewrite Hnone].
  unfold duplicate_mask_any, other_persons. cbn [rows].
  induction (rows (load_data fs)) as [|r rs IH]; [done|]. cbn [List.filter].
  destruct (py_eq (cell r "person_id") person_id) eqn:E; cbn [negb]; [done|].
  cbn [existsb]. unfold same_key at 1. by rewrite E, IH.
Qed.

(** X21. Adding an accepted record whose keys are all columns of the
    store, then deleting the last position, gives back the dataset that
    was there before, when the CSV layer reads back the tables written. *)
Theorem add_entry_then_delete_last (entry_data : dict) (fs : file) (pid ts : pyval) :
  entry_data !! "person_id" = Some pid ->
  entry_data !! "timestamp" = Some ts ->
  duplicate_mask_any (load_data fs) pid ts = false ->
  (forall k, is_Some (entry_data !! k) -> k ∈ columns (load_data fs)) ->
  round_trips (appended entry_data fs) ->
  round_trips (load_data fs) ->
  let added := snd (add_entry entry_data fs) in
  let last := Z.of_nat (nrows (load_data fs)) in
  fst (delete_entry last added) = true /\
  load_data (snd (delete_entry last added)) = load_data fs.
Proof.
  intros Hpid Hts Hdup Hkeys Hrt Hrt0. cbn zeta.
  rewrite (add_entry_keyed _ _ _ _ Hpid Hts), Hdup. cbn [snd].
  unfold delete_entry. rewrite (load_appended _ _ Hrt).
  assert (Hcols : columns (appended entry_data fs) = columns (load_data fs)).
  { unfold appended, concat, frame_of_record. cbn [columns].
    rewrite filter_all_false; [by rewrite app_nil_r|].
    intros c Hc. apply negb_false_iff, has_column_true, Hkeys.
    apply list_elem_of_In, list_elem_of_fmap in Hc as [[k v] [-> Hkv]].
    apply elem_of_map_to_list in Hkv. by exists v. }
  assert (Hrows : rows (appended entry_data fs) = rows (load_data fs) ++ [entry_data])
    by done.
  unfold nrows. rewrite Hrows, length_app. cbn [length].
  replace (Z.of_nat (length (rows (load_data fs))) <? 0) with false
    by (symmetry; apply Z.ltb_ge; lia).
  rewrite Z.geb_leb.
  replace (Z.of_nat (length (rows (load_data fs)) + 1) <=?
           Z.of_nat (length (rows (load_data fs)))) with false
    by (symmetry; apply Z.leb_gt; lia).
  cbn [orb fst snd]. split; [done|].
  rewrite Nat2Z.id, Hcols, delete_middle, app_nil_r.
  replace (mkFrame (columns (load_data fs)) (rows (load_data fs)))
    with (load_data fs) by (by destruct (load_data fs)).
  apply load_written; [done|apply load_data_columns].
Qed.

(** X22. [_ensure_csv_exists] leaves an existing file as it is and
    creates an absent one; when the CSV layer reads back the empty table,
    [load_data] returns the same frame before and after it. *)
Theorem ensure_csv_exists_keeps_data (fs : file) :
  round_trips empty_frame ->
  is_Some (_ensure_csv_exists fs) /\
  (is_Some fs -> _ensure_csv_exists fs = fs) /\
  load_data (_ensure_csv_exists fs) = load_data fs.
Proof.
  intros Hrt. destruct fs as [text|]; cbn [_ensure_csv_exists]; [by repeat split|].
  split; [done|]. split; [by intros []|].
  apply load_written; [done|]. apply Forall_forall. by intros c Hc.
Qed.

End MoreStoreFacts.

(** * get_person_data *)

Section QueryFacts.

Context `{CsvIO}.
Variable to_datetime : pyval -> result pyval.
Variable sort_values : string -> DataFrame -> result DataFrame.

Lemma rows_of_person_empty p fs :
  empty (rows_of_person p (load_data fs)) = true ->
  rows (rows_of_person p (load_data fs)) = [].
Proof.
  pose proof (load_data_columns_nonempty fs). unfold empty, rows_of_person.
  cbn [columns rows]. destruct (columns (load_data fs)); [done|].
  by destruct (List.filter _ _).
Qed.

Lemma rows_of_person_elem p df r :
  r ∈ rows (rows_of_person p df) <->
  r ∈ rows df /\ py_eq (cell r "person_id") p = true.
Proof.
  unfold rows_of_person. cbn [rows]. by rewrite !list_elem_of_In, List.filter_In.
Qed.

(** X23. Without date bounds, and with a [sort_values] that only
    reorders rows, [get_person_data] returns exactly the stored rows whose
    person equals the one asked for, each as stored; for a person without
    rows it returns the empty frame with the seven columns. *)
Theorem get_person_data_rows (person_id : pyval) (fs : file) :
  reorders sort_values ->
  let out := get_person_data to_datetime sort_values person_id None None fs in
  (forall r, r ∈ rows out <->
             r ∈ rows (load_data fs) /\ py_eq (cell r "person_id") person_id = true) /\
  (rows (rows_of_person person_id (load_data fs)) = [] -> out = empty_frame).
Proof.
  intros Hsort. cbn zeta. unfold get_person_data.
  destruct (empty (load_data fs)) eqn:He; cbn [try_except].
  { split; [|done]. intros r. rewrite (load_data_empty _ He). cbn. set_solver. }
  destruct (empty (rows_of_person person_id (load_data fs))) eqn:Hp; cbn [try_except].
  { split; [|done]. intros r. rewrite <- rows_of_person_elem.
    rewrite (rows_of_person_empty _ _ Hp). cbn. set_solver. }
  cbn [bool_decide orb bind].
  rewrite !bool_decide_eq_false_2 by (by intros []). cbn [orb bind].
  destruct (Hsort "timestamp" (rows_of_person person_id (load_data fs)))
    as (sorted & -> & _ & Hperm). cbn [try_except]. split.
  - intros r. by rewrite Hperm, rows_of_person_elem.
  - intros Hnil. unfold empty in Hp. rewrite Hnil in Hp.
    by destruct (columns (rows_of_person person_id (load_data fs))).
Qed.

Lemma convert_column_Ok col rs :
  (forall r, r ∈ rs -> exists v, to_datetime (cell r col) = Ok v) ->
  exists out, convert_column to_datetime col rs = Ok out /\
    forall r', r' ∈ out <->
      exists r v, r ∈ rs /\ to_datetime (cell r col) = Ok v /\ r' = <[col := v]> r.
Proof.
  induction rs as [|r rs IH]; intros Hall.
  - exists []. split; [done|]. intros r'. split; [by intros ?%elem_of_nil|].
    by intros (r & v & ?%elem_of_nil & _).
  - destruct (Hall r) as [v Hv]; [set_solver|].
    destruct IH as (out & Hout & Hiff); [intros; apply Hall; set_solver|].
    exists (<[col := v]> r :: out). split.
    { cbn [convert_column]. by rewrite Hv, Hout. }
    intros r'. rewrite elem_of_cons, Hiff. split.
    + intros [->|(r0 & v0 & Hr0 & Hv0 & ->)].
      * exists r, v. split; [set_solver|done].
      * exists r0, v0. split; [set_solver|done].
    + intros (r0 & v0 & [->|Hr0]%elem_of_cons & Hv0 & ->).
      * left. congruence.
      * right. by exists r0, v0.
Qed.

Lemma convert_column_Raise col rs r e :
  r ∈ rs -> to_datetime (cell r col) = Raise e ->
  exists e', convert_column to_datetime col rs = Raise e'.
Proof.
  induction rs as [|x rs IH]; [by intros ?%elem_of_nil|].
  intros [->|Hr]%elem_of_cons He; cbn [convert_column].
  - rewrite He. by eexists.
  - destruct (to_datetime (cell x col)); cbn [bind]; [|by eexists].
    destruct (IH Hr He) as [e' ->]. by eexists.
Qed.

(** X24. With a start or an end date, and a [sort_values] that only
    reorders rows: when every timestamp of the person's rows converts,
    [get_person_data] returns exactly those rows, with the timestamp
    replaced by its conversion, whose date is on or after the start and on
    or before the end (each bound only if given); a row whose timestamp
    converts to the missing value is left out. When one timestamp of the
    person's rows cannot be converted, the query returns the empty frame:
    no row at all, not even those that convert. *)
Theorem get_person_data_between (person_id : pyval) (start_date end_date : option date)
    (fs : file) :
  reorders sort_values ->
  is_Some start_date \/ is_Some end_date ->
  let out := get_person_data to_datetime sort_values person_id start_date end_date fs in
  let mine := rows (rows_of_person person_id (load_data fs)) in
  ((forall r, r ∈ mine -> exists v, to_datetime (cell r "timestamp") = Ok v) ->
   forall r', r' ∈ rows out <->
     exists r v, r ∈ mine /\ to_datetime (cell r "timestamp") = Ok v /\
       r' = <["timestamp" := v]> r /\ within_dates start_date end_date r' = true) /\
  ((exists r e, r ∈ mine /\ to_datetime (cell r "timestamp") = Raise e) ->
   out = empty_frame).
Proof.
  intros Hsort Hbound. cbn zeta. unfold get_person_data.
  destruct (empty (load_data fs)) eqn:He; cbn [try_except].
  { unfold rows_of_person. rewrite (load_data_empty _ He). cbn [rows List.filter].
    split; [|done]. intros _ r'. split; [by intros ?%elem_of_nil|].
    by intros (r & v & ?%elem_of_nil & _). }
  destruct (empty (rows_of_person person_id (load_data fs))) eqn:Hp; cbn [try_except].
  { rewrite (rows_of_person_empty _ _ Hp).
    split; [|done]. intros _ r'. split; [by intros ?%elem_of_nil|].
    by intros (r & v & ?%elem_of_nil & _). }
  assert (Hgiven : bool_decide (is_Some start_date) || bool_decide (is_Some end_date) = true).
  { destruct Hbound as [Hs|He'].
    - by rewrite bool_decide_eq_true_2.
    - rewrite (bool_decide_eq_true_2 (is_Some end_date)) by done. apply orb_true_r. }
  rewrite Hgiven. split.
  - intros Hall.
    destruct (convert_column_Ok "timestamp" _ Hall) as (converted & -> & Hconv).
    cbn [bind].
    match goal with
    | |- context [sort_values "timestamp" ?df] =>
        destruct (Hsort "timestamp" df) as (sorted & -> & _ & Hperm)
    end.
    cbn [try_except]. intros r'. rewrite Hperm.
    assert (Hkept : r' ∈
      rows match end_date with
           | Some d =>
               keep_rows (on_or_before d)
                 match start_date with
                 | Some d0 => keep_rows (on_or_after d0)
                     (mkFrame (columns (rows_of_person person_id (load_data fs))) converted)
                 | None => mkFrame (columns (rows_of_person person_id (load_data fs))) converted
                 end
           | None =>
               match start_date with
               | Some d0 => keep_rows (on_or_after d0)
                   (mkFrame (columns (rows_of_person person_id (load_data fs))) converted)
               | None => mkFrame (columns (rows_of_person person_id (load_data fs))) converted
               end
           end <-> r' ∈ converted /\ within_dates start_date end_date r' = true).
    { unfold within_dates, keep_rows.
      destruct start_date as [s|], end_date as [e|]; cbn [rows columns from_option];
        rewrite ?list_elem_of_In, ?List.filter_In, ?andb_true_iff; tauto. }
    rewrite Hkept, Hconv. split.
    + intros [(r & v & ? & ? & ->) ?]. by exists r, v.
    + intros (r & v & ? & ? & -> & ?). split; [by exists r, v|done].
  - intros (r & e & Hr & Hraise).
    destruct (convert_column_Raise "timestamp" _ r e Hr Hraise) as [e' ->]. done.
Qed.

End QueryFacts.

(** * The further properties on the file model *)

Lemma load_data_backfills_witness :
  exists r', rows (load_data (H := text_csv) (Some (Table legacy_table))) !! 0%nat = Some r' /\
    r' !! "energy_level" = Some (PInt 0) /\ r' !! "notes" = Some (PStr "") /\
    r' !! "heart_rate" = Some (PInt 61).
Proof.
  destruct (load_data_backfills (H := text_csv) (Table legacy_table) legacy_table)
    as (_ & _ & Hrows).
  - cbn. lia.
  - reflexivity.
  - destruct (Hrows 0%nat legacy_row eq_refl) as (r' & Hr' & Hcell).
    exists r'. split; [exact Hr'|]. rewrite !Hcell. by vm_compute.
Defined.

Lemma delete_entry_frame_witness :
  fst (delete_entry 0 store_three) = true /\
  rows (load_data (snd (delete_entry 0 store_three))) = [mary_8am; john_9am].
Proof.
  pose proof (delete_entry_frame (H := text_csv) 0 store_three
                (text_round_trips _)) as Hd.
  cbn zeta in Hd.
  replace ((0 <=? 0) && (0 <? Z.of_nat (nrows (load_data store_three))))
    with true in Hd by (by vm_compute).
  destruct Hd as (Htrue & _ & Hrows & _).
  split; [exact Htrue|]. rewrite Hrows. reflexivity.
Defined.

Lemma update_entry_out_of_range_witness :
  update_entry 2 {[ "notes" := PStr "late" ]} store_two_persons
    = (false, store_two_persons) /\
  update_entry 0 {[ "notes" := PStr "late" ]} None = (false, None).
Proof.
  split.
  - apply (update_entry_out_of_range (H := text_csv)). right. vm_compute. discriminate.
  - apply (update_entry_out_of_range (H := text_csv)). right. vm_compute. discriminate.
Defined.

Lemma clear_all_data_empties_witness :
  load_data (snd (clear_all_data store_three)) = empty_frame /\
  fst (add_entry john_8am (snd (clear_all_data store_three))) = true.
Proof.
  destruct (clear_all_data_empties (H := text_csv) store_three john_8am
              (text_round_trips _)) as (_ & Hload & Hadd).
  split; [exact Hload|exact Hadd].
Defined.

Lemma add_entry_without_key_witness :
  fst (add_entry (delete "timestamp" mary_8am) None) = true /\
  add_entry (delete "timestamp" mary_8am) store_john = (false, store_john).
Proof.
  destruct (add_entry_without_key (H := text_csv) (delete "timestamp" mary_8am) None)
    as [Hempty _]; [right; reflexivity|].
  destruct (add_entry_without_key (H := text_csv) (delete "timestamp" mary_8am) store_john)
    as [_ Hfull]; [right; reflexivity|].
  split.
  - rewrite Hempty; reflexivity.
  - apply Hfull. discriminate.
Defined.

Lemma add_entry_keeps_unique_keys_witness :
  unique_keys (load_data (snd (add_entry mary_8am store_john))).
Proof.
  apply (add_entry_keeps_unique_keys (H := text_csv)).
  - intros i j ri rj Hi Hj Hne.
    change (rows (load_data store_john)) with [john_8am] in Hi, Hj.
    apply list_lookup_singleton_Some in Hi as [Hi _].
    apply list_lookup_singleton_Some in Hj as [Hj _]. lia.
  - apply text_round_trips.
Defined.

Lemma delete_person_data_then_add_witness :
  fst (add_entry john_9am (snd (delete_person_data (PStr "john_doe") store_three))) = true.
Proof.
  apply (delete_person_data_then_add (H := text_csv) (PStr "john_doe")
           (PStr "2024-01-01 09:00:00") john_9am store_three).
  - reflexivity.
  - reflexivity.
  - apply text_round_trips.
Defined.

Lemma add_entry_then_delete_last_witness :
  load_data (snd (delete_entry 1 (snd (add_entry mary_8am store_john))))
    = load_data store_john.
Proof.
  apply (add_entry_then_delete_last (H := text_csv) mary_8am store_john
           (PStr "mary") (PStr "2024-01-01 08:00:00")).
  - reflexivity.
  - reflexivity.
  - reflexivity.
  - intros k [v Hk]. change (columns (load_data store_john)) with self_columns.
    unfold mary_8am, record in Hk.
    cbn [list_to_map fold_right foldr fst snd] in Hk.
    destruct (decide (k ∈ self_columns)) as [|Hn]; [done|]. exfalso.
    unfold self_columns in Hn. rewrite !not_elem_of_cons in Hn.
    destruct Hn as (? & ? & ? & ? & ? & ? & ? & _).
    rewrite !lookup_insert_ne, lookup_empty in Hk by done. done.
  - apply text_round_trips.
  - apply text_round_trips.
Defined.

Lemma ensure_csv_exists_keeps_data_witness :
  load_data (_ensure_csv_exists (H := text_csv) None) = empty_frame /\
  _ensure_csv_exists store_john = store_john.
Proof.
  destruct (ensure_csv_exists_keeps_data (H := text_csv) None (text_round_trips _))
    as (_ & _ & Hload).
  destruct (ensure_csv_exists_keeps_data (H := text_csv) store_john (text_round_trips _))
    as (_ & Hsame & _).
  split; [exact Hload|]. apply Hsame. by eexists.
Defined.

Lemma insert_by_timestamp_perm r rs : insert_by_timestamp r rs ≡ₚ r :: rs.
Proof.
  induction rs as [|x rs IH]; [done|]. cbn [insert_by_timestamp].
  destruct (String.leb _ _); [done|]. rewrite IH. apply Permutation_swap.
Qed.

Lemma sort_by_timestamp_reorders : reorders sort_by_timestamp.
Proof.
  intros col df. eexists. split; [reflexivity|]. split; [done|]. cbn [rows].
  induction (rows df) as [|r rs IH]; [done|]. cbn [foldr].
  by rewrite insert_by_timestamp_perm, IH.
Qed.

Lemma get_person_data_rows_witness :
  john_9am ∈ rows (get_person_data (H := text_csv) to_datetime_text sort_by_timestamp
                     (PStr "john_doe") None None store_three) /\
  ~ mary_8am ∈ rows (get_person_data (H := text_csv) to_datetime_text sort_by_timestamp
                       (PStr "john_doe") None None store_three).
Proof.
  destruct (get_person_data_rows (H := text_csv) to_datetime_text sort_by_timestamp
              (PStr "john_doe") store_three sort_by_timestamp_reorders) as [Hiff _].
  split.
  - apply Hiff. split; [|reflexivity].
    change (rows (load_data store_three)) with [john_8am; mary_8am; john_9am].
    do 2 apply list_elem_of_further. apply list_elem_of_here.
  - intros Hin. apply Hiff in Hin as [_ Hp]. by vm_compute in Hp.
Defined.

Lemma get_person_data_between_witness :
  <["timestamp" := PDatetime eight_o_clock]> john_8am ∈
    rows (get_person_data (H := text_csv) to_datetime_text sort_by_timestamp
            (PStr "john_doe") (Some (mkDate 2024 1 1)) None store_two_persons).
Proof.
  destruct (get_person_data_between (H := text_csv) to_datetime_text sort_by_timestamp
              (PStr "john_doe") (Some (mkDate 2024 1 1)) None store_two_persons
              sort_by_timestamp_reorders) as [Hall _].
  - left. by eexists.
  - apply Hall.
    + intros r Hr.
      change (rows (rows_of_person (PStr "john_doe") (load_data store_two_persons)))
        with [john_8am] in Hr.
      apply list_elem_of_singleton in Hr as ->. by eexists.
    + exists john_8am, (PDatetime eight_o_clock).
      change (rows (rows_of_person (PStr "john_doe") (load_data store_two_persons)))
        with [john_8am].
      split; [apply list_elem_of_here|]. split; [reflexivity|]. split; reflexivity.
Defined.

(** * Early rejections of the timestamp, and repeated updates *)

(** X25. For every clock reading, 29 February included,
    [validate_timestamp] returns a verdict without looking at the lower
    bound for a value that is neither a string nor a datetime, for a text
    that matches neither format, and for an instant after the clock
    reading; and a valid verdict carries the parsed instant. *)
Theorem validate_timestamp_rejections strptime (now : datetime) (ts : pyval) :
  (is_str ts = false -> (forall d, ts <> PDatetime d) ->
   validate_timestamp strptime now ts
     = Ok (plain false "Timestamp must be a string or datetime object")) /\
  (forall s m1 m2, ts = PStr s ->
     strptime s fmt_seconds = Raise (ValueError m1) ->
     strptime s fmt_minutes = Raise (ValueError m2) ->
     validate_timestamp strptime now ts
       = Ok (plain false
          "Invalid timestamp format. Use YYYY-MM-DD HH:MM:SS or YYYY-MM-DD HH:MM")) /\
  (forall parsed, parses_to strptime ts parsed -> dt_gt parsed now = true ->
     validate_timestamp strptime now ts
       = Ok (plain false "Timestamp cannot be in the future")) /\
  (forall parsed v, parses_to strptime ts parsed ->
     validate_timestamp strptime now ts = Ok v -> valid v = true ->
     parsed_timestamp v = Some parsed).
Proof.
  split; [|split; [|split]].
  - intros Hstr Hdt. destruct ts; try done. by destruct (Hdt d).
  - intros s m1 m2 -> H1 H2. cbn [validate_timestamp]. by rewrite H1, H2.
  - intros parsed Hp Hgt. rewrite (validate_timestamp_parsed _ _ _ _ Hp).
    unfold check_timestamp_range. by rewrite Hgt.
  - intros parsed v Hp. rewrite (validate_timestamp_parsed _ _ _ _ Hp).
    unfold check_timestamp_range. destruct (dt_gt parsed now); [by intros [= <-]|].
    destruct (datetime_ymd _ _ _) as [bound|]; cbn [bind]; [|done].
    destruct (dt_lt parsed bound); by intros [= <-].
Qed.

Section UpdateTwice.

Context `{CsvIO}.



End UpdateTwice.

